(** * AndicBlue: order, inventory and cash-flow ledger

    Shallow embedding of the business logic of [andicblue_streamlit_gs.py]
    (section "BUSINESS LOGIC" and the form handlers that call it).

    The five worksheets of the spreadsheet are modelled as lists of rows, in
    sheet order (the header row is not part of the list, so that the pandas
    index [i] of a row is its position in the list and its gspread row number
    is [i + 2]).  Functions that read or write a worksheet run in a small
    state-and-exception monad over the record of the five sheets.

    Money: every amount that reaches a sheet is a whole number of pesos
    (catalog prices, the delivery fee and the [number_input] widgets are all
    Python [int]s).  [mark_order_delivered] converts them with [float(...)];
    on whole numbers below 2^53 the binary64 operations it uses ([min],
    [max], [-], [+]) are exact, so amounts are modelled as [Z].  Statements
    that depend on that range carry it as a hypothesis ([suma_exacta] for
    the sums of the summary, a bound on the amount where [float(...)] of it
    is stored).

    Cells: [get_all_records] gives a text cell back as a [str] and a cell
    that looks like a number as a number.  Names (of customers and of
    products) are modelled as strings: a name that the spreadsheet reads
    back as a number, or that pandas reads as missing, is outside the model,
    and so are the failures the code has on such a name.

    Clock: [datetime.now().strftime(...)] is an input of the operations that
    read it (argument [fecha]). *)

From stdpp Require Import base list strings pretty gmap fin_maps.
From Stdlib Require Import ZArith Lia.

Open Scope string_scope.
Open Scope Z_scope.

(** ** Configuration *)

Definition PRODUCTOS : list (string * Z) :=
  [ ("Docena de Arándanos 125g", 52500);
    ("Arandanos_125g", 5000);
    ("Arandanos_250g", 10000);
    ("Arandanos_500g", 20000);
    ("Kilo_industrial", 30000);
    ("Mermelada_azucar", 16000);
    ("Mermelada_sin_azucar", 20000) ].

Definition DOMICILIO_COST : Z := 3000.

(** ** Rows of the worksheets *)

(** HEAD_CLIENTES *)
Record Cliente := mkCliente {
  cli_ID_Cliente : Z;
  cli_Nombre : string;
  cli_Telefono : string;
  cli_Direccion : string }.

(** HEAD_PEDIDOS *)
Record Pedido := mkPedido {
  ID_Pedido : Z;
  Fecha : string;
  ID_Cliente : Z;
  Nombre_Cliente : string;
  Productos_detalle : string;
  Subtotal_productos : Z;
  Monto_domicilio : Z;
  Total_pedido : Z;
  Estado : string;
  Medio_pago : string;
  Monto_pagado : Z;
  Saldo_pendiente : Z }.

(** HEAD_INVENTARIO: a row is (Producto, Stock). *)
Definition InvRow : Type := string * Z.

(** HEAD_FLUJO *)
Record Flujo := mkFlujo {
  fl_Fecha : string;
  fl_ID_Pedido : Z;
  fl_Cliente : string;
  fl_Medio_pago : string;
  Ingreso_productos_recibido : Z;
  Ingreso_domicilio_recibido : Z;
  Saldo_pendiente_total : Z }.

(** HEAD_GASTOS *)
Record Gasto := mkGasto {
  ga_Fecha : string;
  ga_Concepto : string;
  ga_Monto : Z }.

Record Sheets := mkSheets {
  ws_clientes : list Cliente;
  ws_pedidos : list Pedido;
  ws_inventario : list InvRow;
  ws_flujo : list Flujo;
  ws_gastos : list Gasto }.

(** ** Exceptions and the sheet monad *)

Inductive exn :=
| ValueError (msg : string)
| KeyError (key : string)
| IndexError.

Definition M (A : Type) : Type := Sheets → (exn + A) * Sheets.

Definition ret {A} (a : A) : M A := λ st, (inr a, st).
Definition raise {A} (e : exn) : M A := λ st, (inl e, st).
Definition bind {A B} (m : M A) (k : A → M B) : M B := λ st,
  match m st with
  | (inl e, st') => (inl e, st')
  | (inr a, st') => k a st'
  end.
Definition gets {A} (f : Sheets → A) : M A := λ st, (inr (f st), st).
Definition modify (f : Sheets → Sheets) : M unit := λ st, (inr tt, f st).

Global Instance sheet_ret : MRet M := @ret.
Global Instance sheet_bind : MBind M := λ A B k m, bind m k.

(** ** Writers of the individual sheets *)

Definition set_clientes (f : list Cliente → list Cliente) (st : Sheets) : Sheets :=
  mkSheets (f (ws_clientes st)) (ws_pedidos st) (ws_inventario st) (ws_flujo st) (ws_gastos st).
Definition set_pedidos (f : list Pedido → list Pedido) (st : Sheets) : Sheets :=
  mkSheets (ws_clientes st) (f (ws_pedidos st)) (ws_inventario st) (ws_flujo st) (ws_gastos st).
Definition set_inventario (f : list InvRow → list InvRow) (st : Sheets) : Sheets :=
  mkSheets (ws_clientes st) (ws_pedidos st) (f (ws_inventario st)) (ws_flujo st) (ws_gastos st).
Definition set_flujo (f : list Flujo → list Flujo) (st : Sheets) : Sheets :=
  mkSheets (ws_clientes st) (ws_pedidos st) (ws_inventario st) (f (ws_flujo st)) (ws_gastos st).
Definition set_gastos (f : list Gasto → list Gasto) (st : Sheets) : Sheets :=
  mkSheets (ws_clientes st) (ws_pedidos st) (ws_inventario st) (ws_flujo st) (f (ws_gastos st)).

(** [append_row_ws ws row] *)
Definition append_row {A} (row : A) (rows : list A) : list A := (rows ++ [row])%list.

(** ** Delivery and payment: [mark_order_delivered] *)

(** Lines 222-228: the payment goes to the products first, what is left to
    the delivery fee. *)
Record Asignacion := mkAsignacion {
  prod_paid : Z;
  domicilio_paid : Z;
  saldo_total : Z }.

Definition asignar_pago (subtotal_products domicilio_monto monto : Z) : Asignacion :=
  let prod_paid := Z.min monto subtotal_products in
  let rem := Z.max 0 (monto - prod_paid) in
  let domicilio_paid := Z.min rem domicilio_monto in
  let saldo_total := (subtotal_products - prod_paid) + (domicilio_monto - domicilio_paid) in
  mkAsignacion prod_paid domicilio_paid saldo_total.

(** [df.index[df[col] == v].tolist()[0]] together with
    [df.loc[df[col] == v].iloc[0]]: position and contents of the first row
    whose key matches. *)
Fixpoint find_row {A} (key : A → bool) (rows : list A) : option (nat * A) :=
  match rows with
  | [] => None
  | r :: rest =>
    if key r then Some (0%nat, r)
    else match find_row key rest with
         | Some (i, r') => Some (S i, r')
         | None => None
         end
  end.

Definition entregar (medio_pago : string) (monto : Z) (a : Asignacion) (row : Pedido) : Pedido :=
  mkPedido (ID_Pedido row) (Fecha row) (ID_Cliente row) (Nombre_Cliente row)
    (Productos_detalle row) (Subtotal_productos row) (Monto_domicilio row)
    (Total_pedido row) "Entregado" medio_pago monto (saldo_total a).

Definition mark_order_delivered (fecha : string) (order_id : Z) (medio_pago : string)
    (monto_pagado : Z) : M Asignacion :=
  dfp ← gets ws_pedidos;
  match find_row (λ r, ID_Pedido r =? order_id) dfp with
  | None => raise (ValueError "Pedido no encontrado")
  | Some (idx, row) =>
    let a := asignar_pago (Subtotal_productos row) (Monto_domicilio row) monto_pagado in
    modify (set_pedidos (alter (entregar medio_pago monto_pagado a) idx));;
    modify (set_flujo (append_row
      (mkFlujo fecha order_id (Nombre_Cliente row) medio_pago
               (prod_paid a) (domicilio_paid a) (saldo_total a))));;
    mret a
  end.

(** ** Identifiers and customers *)

(** [next_id_for_sheet]: [max(existing) + 1 if existing else 1] over the id
    column of the sheet. *)
Definition next_id (existing : list Z) : Z :=
  match existing with
  | [] => 1
  | x :: xs => foldl Z.max x xs + 1
  end.

Definition add_cliente (nombre telefono direccion : string) : M Z :=
  cid ← gets (λ st, next_id (cli_ID_Cliente <$> ws_clientes st));
  modify (set_clientes (append_row (mkCliente cid nombre telefono direccion)));;
  mret cid.

(** What a form handler shows: [st.error(...)] or [st.success(...)]. *)
Inductive aviso :=
| st_error (msg : string)
| st_success (msg : string).

(** Handler of [form_add_cliente] (lines 274-279). *)
Definition form_add_cliente (n t d : string) : M aviso :=
  if decide (n = "") then mret (st_error "Nombre requerido")
  else
    cid ← add_cliente n t d;
    mret (st_success ("Cliente agregado con ID " +:+ pretty cid)).

(** ** Inventory *)

(** [get_inventory_map]: a dict comprehension over the rows, so a later row
    of the same product overrides an earlier one. *)
Definition inventory_map (rows : list InvRow) : gmap string Z :=
  foldl (λ (m : gmap string Z) (r : InvRow), <[r.1 := r.2]> m) ∅ rows.

Definition get_inventory_map : M (gmap string Z) :=
  gets (λ st, inventory_map (ws_inventario st)).

(** Loop of [update_inventory_after_order].  [inv] is the frame read before
    the loop; it is read again only after a row was appended.  Subscripting
    a frame without rows (hence without columns) with ["Producto"] raises
    [KeyError]. *)
Fixpoint update_inventory_loop (inv : list InvRow) (products_qty : list (string * Z))
    : M unit :=
  match products_qty with
  | [] => mret tt
  | (prod, qty) :: rest =>
    match inv with
    | [] => raise (KeyError "Producto")
    | _ :: _ =>
      match find_row (λ r : InvRow, String.eqb r.1 prod) inv with
      | None =>
        modify (set_inventario (append_row (prod, Z.max 0 (- qty))));;
        inv' ← gets ws_inventario;
        update_inventory_loop inv' rest
      | Some (idx, r) =>
        let current := r.2 in
        let new_stock := Z.max 0 (current - qty) in
        modify (set_inventario (alter (λ row : InvRow, (row.1, new_stock)) idx));;
        update_inventory_loop inv rest
      end
    end
  end.

Definition update_inventory_after_order (products_qty : list (string * Z)) : M unit :=
  inv ← gets ws_inventario;
  update_inventory_loop inv products_qty.

(** The stock form (lines 308-320); [nueva] comes from a [number_input] with
    [min_value=0].  The form subscripts the frame with ["Producto"] (lines
    312 and 317), which raises [KeyError] on a frame without rows; on a
    frame with rows, [tolist()[0]] raises [IndexError] when no row has the
    product. *)
Definition form_update_inventory (prod : string) (nueva : Z) : M aviso :=
  df_inv ← gets ws_inventario;
  match df_inv with
  | [] => raise (KeyError "Producto")
  | _ :: _ =>
    match find_row (λ r : InvRow, String.eqb r.1 prod) df_inv with
    | None => raise IndexError
    | Some (idx, r) =>
      let current := r.2 in
      modify (set_inventario (alter (λ row : InvRow, (row.1, current + nueva)) idx));;
      mret (st_success ("Stock actualizado: " +:+ prod +:+ " = "
                        +:+ pretty (current + nueva)))
    end
  end.

(** ** Orders: [create_order] *)

(** [PRODUCTOS.get(p) if p in PRODUCTOS else 0] *)
Fixpoint dict_get (p : string) (d : list (string * Z)) : option Z :=
  match d with
  | [] => None
  | (k, v) :: rest => if String.eqb k p then Some v else dict_get p rest
  end.

Definition precio_de (p : string) : Z :=
  match dict_get p PRODUCTOS with
  | Some precio => precio
  | None => 0
  end.

(** Lines 179-185. *)
Fixpoint validar_stock (inv_map : gmap string Z) (productos_cant : list (string * Z))
    : M unit :=
  match productos_cant with
  | [] => mret tt
  | (p, q) :: rest =>
    if q <=? 0 then validar_stock inv_map rest
    else
      match inv_map !! p with
      | None => raise (ValueError ("Producto no existe en inventario: " +:+ p))
      | Some disponible =>
        if disponible <? q then
          raise (ValueError ("Stock insuficiente para " +:+ p +:+ ": disponible "
                             +:+ pretty disponible +:+ ", pedido " +:+ pretty q))
        else validar_stock inv_map rest
      end
  end.

(** [f"{p} x{q} (@{precio})"] *)
Definition linea_detalle (p : string) (q precio : Z) : string :=
  p +:+ " x" +:+ pretty q +:+ " (@" +:+ pretty precio +:+ ")".

(** One turn of the loop of lines 190-194 on [(subtotal, detalle)]. *)
Definition acumular (acc : Z * list string) (item : string * Z) : Z * list string :=
  let precio := precio_de item.1 in
  (acc.1 + precio * item.2,
   if 0 <? item.2 then (acc.2 ++ [linea_detalle item.1 item.2 precio])%list else acc.2).

(** [sep.join(parts)] *)
Fixpoint join (sep : string) (parts : list string) : string :=
  match parts with
  | [] => ""
  | [s] => s
  | s :: rest => s +:+ sep +:+ join sep rest
  end.

Definition create_order (fecha : string) (cliente_id : Z)
    (productos_cant : list (string * Z)) (domicilio_bool : bool) : M Z :=
  clientes_df ← gets ws_clientes;
  match find_row (λ c, cli_ID_Cliente c =? cliente_id) clientes_df with
  | None => raise (ValueError "ID cliente no encontrado")
  | Some (_, c) =>
    let client_name := cli_Nombre c in
    inv_map ← get_inventory_map;
    validar_stock inv_map productos_cant;;
    let acc := foldl acumular (0, []) productos_cant in
    let subtotal := acc.1 in
    let detalle := acc.2 in
    let domicilio_monto := if domicilio_bool then DOMICILIO_COST else 0 in
    let total_pedido := subtotal + domicilio_monto in
    pid ← gets (λ st, next_id (ID_Pedido <$> ws_pedidos st));
    let productos_detalle_str := join " | " detalle in
    modify (set_pedidos (append_row
      (mkPedido pid fecha cliente_id client_name productos_detalle_str
                subtotal domicilio_monto total_pedido "Pendiente" "" 0 subtotal)));;
    update_inventory_after_order productos_cant;;
    mret pid
  end.

(** The order form (lines 292-295) builds the mapping by walking the
    catalog, one [number_input] per product. *)
Definition form_productos_cant (cantidad : string → Z) : list (string * Z) :=
  (λ pp : string * Z, (pp.1, cantidad pp.1)) <$> PRODUCTOS.

(** ** Expenses and the cash-flow summary *)

Definition add_expense (fecha concepto : string) (monto : Z) : M unit :=
  modify (set_gastos (append_row (mkGasto fecha concepto monto))).

(** [df.loc[mask, col].sum()] and [df[col].sum()] *)
Definition sum_col {A} (col : A → Z) (rows : list A) : Z :=
  foldr (λ r acc, col r + acc) 0 rows.

Record Resumen := mkResumen {
  total_prod_efectivo : Z;
  total_prod_transfer : Z;
  total_prod_other : Z;
  total_prod : Z;
  total_domicilios : Z;
  total_gastos : Z;
  saldo_real : Z }.

Definition es_medio (m : string) (r : Flujo) : bool := String.eqb (fl_Medio_pago r) m.

(** Lines 347-360. *)
Definition resumen (df_flujo : list Flujo) (df_gastos : list Gasto) : Resumen :=
  let total_prod_efectivo :=
    sum_col Ingreso_productos_recibido (filter (λ r, es_medio "Efectivo" r) df_flujo) in
  let total_prod_transfer :=
    sum_col Ingreso_productos_recibido (filter (λ r, es_medio "Transferencia" r) df_flujo) in
  let total_prod_other :=
    sum_col Ingreso_productos_recibido
      (filter (λ r, negb (es_medio "Efectivo" r || es_medio "Transferencia" r)) df_flujo) in
  let total_prod := total_prod_efectivo + total_prod_transfer + total_prod_other in
  let total_domicilios := sum_col Ingreso_domicilio_recibido df_flujo in
  let total_gastos := sum_col ga_Monto df_gastos in
  let saldo_real := total_prod - total_gastos in
  mkResumen total_prod_efectivo total_prod_transfer total_prod_other total_prod
            total_domicilios total_gastos saldo_real.

(** The amounts of the two tables are whole pesos that pandas adds exactly:
    their absolute values add up to at most 2^53, so that every sum of an
    int64 or a float64 column is the sum of the numbers. *)
Definition suma_exacta (df_flujo : list Flujo) (df_gastos : list Gasto) : Prop :=
  sum_col (λ e, Z.abs (Ingreso_productos_recibido e)
                + Z.abs (Ingreso_domicilio_recibido e)) df_flujo
  + sum_col (λ g, Z.abs (ga_Monto g)) df_gastos ≤ 2 ^ 53.

(** ** Vocabulary of the statements *)

(** Stock of a product as [update_inventory_after_order] and the inventory
    form read it: the first row of that name. *)
Definition stock_of (p : string) (rows : list InvRow) : option Z :=
  match find_row (λ r : InvRow, String.eqb r.1 p) rows with
  | Some (_, r) => Some r.2
  | None => None
  end.

Definition stock_nonneg (st : Sheets) : Prop :=
  Forall (λ r : InvRow, 0 ≤ r.2) (ws_inventario st).

(** A line item passes the checks of lines 179-185. *)
Definition item_ok (inv_map : gmap string Z) (item : string * Z) : Prop :=
  item.2 ≤ 0 ∨ ∃ disponible, inv_map !! item.1 = Some disponible ∧ item.2 ≤ disponible.

(** The error kinds of the domain, and the exception each one is raised as. *)
Inductive error_kind :=
| NotFoundError
| ValidationError (producto : string)
| InsufficientStockError (producto : string) (available requested : Z).

Definition raised_as (k : error_kind) : exn :=
  match k with
  | NotFoundError => ValueError "ID cliente no encontrado"
  | ValidationError p => ValueError ("Producto no existe en inventario: " +:+ p)
  | InsufficientStockError p available requested =>
    ValueError ("Stock insuficiente para " +:+ p +:+ ": disponible "
                +:+ pretty available +:+ ", pedido " +:+ pretty requested)
  end.

Definition cliente_registrado (cliente_id : Z) (st : Sheets) : Prop :=
  cliente_id ∈ cli_ID_Cliente <$> ws_clientes st.

(** Some check of [create_order] fails. *)
Definition validacion_falla (cliente_id : Z) (productos_cant : list (string * Z))
    (st : Sheets) : Prop :=
  ¬ cliente_registrado cliente_id st ∨
  ∃ p q, (p, q) ∈ productos_cant ∧ 0 < q ∧
    match inventory_map (ws_inventario st) !! p with
    | None => True
    | Some disponible => disponible < q
    end.

(** The user-triggered operations on the sheets. *)
Inductive operacion :=
| OpAddCliente (n t d : string)
| OpCreateOrder (fecha : string) (cliente_id : Z) (productos_cant : list (string * Z))
    (domicilio_bool : bool)
| OpMarkDelivered (fecha : string) (order_id : Z) (medio_pago : string) (monto_pagado : Z)
| OpAddExpense (fecha concepto : string) (monto : Z)
| OpUpdateInventory (prod : string) (nueva : Z).

(** Sheets left behind by an operation, whether it returned or raised. *)
Definition ejecutar (op : operacion) (st : Sheets) : Sheets :=
  match op with
  | OpAddCliente n t d => (form_add_cliente n t d st).2
  | OpCreateOrder fecha cid pc dom => (create_order fecha cid pc dom st).2
  | OpMarkDelivered fecha oid medio monto => (mark_order_delivered fecha oid medio monto st).2
  | OpAddExpense fecha concepto monto => (add_expense fecha concepto monto st).2
  | OpUpdateInventory prod nueva => (form_update_inventory prod nueva st).2
  end.

(** Bounds the widgets put on their values: the stock form has
    [min_value=0]. *)
Definition entrada_valida (op : operacion) : Prop :=
  match op with
  | OpUpdateInventory _ nueva => 0 ≤ nueva
  | _ => True
  end.

(** The detail line as the claim words it: the lines of the items with a
    positive quantity, walking the catalog. *)
Definition detalle_catalogo (productos_cant : list (string * Z)) : string :=
  join " | "
    (omap (λ pp : string * Z,
             match dict_get pp.1 productos_cant with
             | Some q => if 0 <? q then Some (linea_detalle pp.1 q pp.2) else None
             | None => None
             end) PRODUCTOS).

(** The detail line as the loop builds it: same lines, walking the mapping. *)
Definition detalle_pedido (productos_cant : list (string * Z)) : string :=
  join " | "
    ((λ it : string * Z, linea_detalle it.1 it.2 (precio_de it.1))
       <$> filter (λ it : string * Z, 0 < it.2) productos_cant).

(** The Order row that [create_order] appends (lines 202-205). *)
Definition fila_pedido (fecha : string) (cliente_id : Z) (client_name : string)
    (productos_cant : list (string * Z)) (domicilio_bool : bool) (pid : Z) : Pedido :=
  let acc := foldl acumular (0, []) productos_cant in
  let domicilio_monto := if domicilio_bool then DOMICILIO_COST else 0 in
  mkPedido pid fecha cliente_id client_name (join " | " acc.2)
           acc.1 domicilio_monto (acc.1 + domicilio_monto) "Pendiente" "" 0 acc.1.

(** Product subtotal of a mapping: catalog price (0 outside the catalog)
    times quantity, over all its items. *)
Definition subtotal_de (productos_cant : list (string * Z)) : Z :=
  sum_col (λ it : string * Z, precio_de it.1 * it.2) productos_cant.

(** Amounts already applied to an order: the product and delivery amounts
    of its cash-flow entries. *)
Definition aplicado (order_id : Z) (df_flujo : list Flujo) : Z :=
  sum_col (λ e, Ingreso_productos_recibido e + Ingreso_domicilio_recibido e)
          (filter (λ e, fl_ID_Pedido e = order_id) df_flujo).

(** The stored balance of an order row is not negative and not above
    subtotal + fee - amounts already applied. *)
Definition saldo_en_rango (df_flujo : list Flujo) (row : Pedido) : Prop :=
  0 ≤ Saldo_pendiente row ∧
  Saldo_pendiente row
  ≤ Subtotal_productos row + Monto_domicilio row - aplicado (ID_Pedido row) df_flujo.

(** Every order row has its balance in range; order ids are unique, fees
    are not negative and cash-flow entries belong to orders of the sheet. *)
Definition saldos_ok (st : Sheets) : Prop :=
  NoDup (ID_Pedido <$> ws_pedidos st) ∧
  Forall (λ e, fl_ID_Pedido e ∈ ID_Pedido <$> ws_pedidos st) (ws_flujo st) ∧
  Forall (λ row, 0 ≤ Monto_domicilio row ∧ saldo_en_rango (ws_flujo st) row)
         (ws_pedidos st).

(** Orders with quantities >= 0, as the order form sends them; settlements
    with an amount >= 0 of an order to which nothing has been applied yet. *)
Definition operacion_admitida (op : operacion) (st : Sheets) : Prop :=
  match op with
  | OpCreateOrder _ _ productos_cant _ =>
    Forall (λ it : string * Z, 0 ≤ it.2) productos_cant
  | OpMarkDelivered _ order_id _ monto_pagado =>
    0 ≤ monto_pagado ∧ aplicado order_id (ws_flujo st) = 0
  | _ => True
  end.

(** A small ledger for the examples: one customer, ten units of every
    catalog product, and the same ledger after a first order with delivery. *)
Definition ejemplo : Sheets :=
  mkSheets [mkCliente 1 "Ana" "3001234567" "Calle 1"] []
           ((λ pp : string * Z, (pp.1, 10)) <$> PRODUCTOS) [] [].

Definition ejemplo_con_pedido : Sheets :=
  (create_order "2024-05-01 10:00:00" 1 [("Arandanos_500g", 1)] true ejemplo).2.

(** Start-up seeding of the inventory sheet (lines 108-112): when the sheet
    has no rows, one row with stock 0 is appended per catalog product. *)
Definition inicializar_inventario : M unit :=
  inv_df ← gets ws_inventario;
  match inv_df with
  | [] => modify (set_inventario
                    (λ rows, foldl (λ acc pp, append_row (pp.1, 0) acc) rows PRODUCTOS))
  | _ :: _ => mret tt
  end.

(** What the data model asks of the inventory sheet: it has rows (it is
    seeded at start-up), one per product name, none with a negative stock. *)
Definition inventario_ok (st : Sheets) : Prop :=
  ws_inventario st ≠ [] ∧ NoDup (ws_inventario st).*1 ∧ stock_nonneg st.

(** ** Helpers and handlers around the ledger *)

(** [find_row_index_by_id] (lines 123-131): gspread row number of the first
    row whose id column holds [id_value]; [None] when the frame has no such
    column (a sheet without rows) or no such row.  Row 1 is the header, so
    the row at pandas index [i] is sheet row [i + 2]. *)
Definition find_row_index_by_id {A} (id_col : A → Z) (rows : list A) (id_value : Z)
    : option nat :=
  match find_row (λ r, id_col r =? id_value) rows with
  | Some (i, _) => Some (i + 2)%nat
  | None => None
  end.

(** The summary of lines 347-360 on the sheets as they stand. *)
Definition resumen_de (st : Sheets) : Resumen := resumen (ws_flujo st) (ws_gastos st).

(** Ids are unique within the customer and the order sheet. *)
Definition ids_ok (st : Sheets) : Prop :=
  NoDup (cli_ID_Cliente <$> ws_clientes st) ∧ NoDup (ID_Pedido <$> ws_pedidos st).

(** Every catalog product has an inventory row. *)
Definition catalogo_en_inventario (st : Sheets) : Prop :=
  Forall (λ pp : string * Z, is_Some (stock_of pp.1 (ws_inventario st))) PRODUCTOS.

(** ** Worksheets and their header row: [ensure_worksheet] (lines 73-83)

    A worksheet is its grid, a list of rows of cell values; [row_values(1)]
    is the first row, [delete_rows(1)] drops it, [insert_row(headers, 1)]
    puts a row above it, [row_count] is the number of grid rows.  A
    spreadsheet maps titles to worksheets; [add_worksheet] makes a grid of
    1000 rows without values. *)
Definition row_values_1 (ws : list (list string)) : list string :=
  match ws with
  | [] => []
  | r :: _ => r
  end.

(** [any(vals)]: some cell is not the empty string. *)
Definition any_cell (vals : list string) : bool :=
  existsb (λ c, negb (String.eqb c "")) vals.

Definition ensure_header (headers : list string) (ws : list (list string))
    : list (list string) :=
  let vals := row_values_1 ws in
  if bool_decide (vals = [])
     || (length vals <? length headers)%nat
     || negb (bool_decide (take (length headers) vals = headers))
  then
    let ws' := if (1 <=? length ws)%nat && any_cell (row_values_1 ws)
               then tail ws else ws in
    headers :: ws'
  else ws.

Definition ensure_worksheet (title : string) (headers : list string)
    (ss : gmap string (list (list string))) : gmap string (list (list string)) :=
  let ws := match ss !! title with
            | Some ws => ws
            | None => replicate 1000 []
            end in
  <[title := ensure_header headers ws]> ss.

(** * Proofs *)

Ltac run := unfold mbind, sheet_bind, bind, mret, sheet_ret, ret, gets, modify, raise in *.

Section FindRow.
Context {A : Type} (key : A → bool).

Lemma find_row_Some rows i r :
  find_row key rows = Some (i, r) → rows !! i = Some r ∧ key r = true.
Proof.
  revert i. induction rows as [|x rows IH]; intros i; simpl; [done|].
  destruct (key x) eqn:Hk.
  - intros [= <- <-]. done.
  - destruct (find_row key rows) as [[j r']|]; [|done].
    intros [= <- <-]. by apply IH.
Qed.

Lemma find_row_None rows :
  find_row key rows = None ↔ Forall (λ r, key r = false) rows.
Proof.
  induction rows as [|x rows IH]; simpl.
  - split; [constructor|done].
  - destruct (key x) eqn:Hk.
    + split; [done|]. intros H. apply Forall_cons_1 in H as [H _]. congruence.
    + destruct (find_row key rows) as [[j r']|] eqn:Hf.
      * split; [done|]. intros H. apply Forall_cons_1 in H as [_ H].
        apply IH in H. done.
      * split; [|done]. intros _. constructor; [done|]. by apply IH.
Qed.

Lemma find_row_is_Some rows x :
  x ∈ rows → key x = true → is_Some (find_row key rows).
Proof.
  intros Hin Hk. destruct (find_row key rows) eqn:Hf; [done|].
  apply find_row_None in Hf. rewrite Forall_forall in Hf.
  specialize (Hf x Hin). congruence.
Qed.
End FindRow.

(** ** Settlement *)

Lemma asignar_pago_saldo_nonneg S F A : 0 ≤ saldo_total (asignar_pago S F A).
Proof. unfold asignar_pago; simpl. lia. Qed.

Lemma asignar_pago_saldo_eq S F A :
  saldo_total (asignar_pago S F A)
  = S + F - (prod_paid (asignar_pago S F A) + domicilio_paid (asignar_pago S F A)).
Proof. unfold asignar_pago; simpl. lia. Qed.

Lemma mark_order_delivered_found fecha order_id medio_pago monto st idx row :
  find_row (λ r, ID_Pedido r =? order_id) (ws_pedidos st) = Some (idx, row) →
  let a := asignar_pago (Subtotal_productos row) (Monto_domicilio row) monto in
  mark_order_delivered fecha order_id medio_pago monto st
  = (inr a,
     set_flujo (append_row (mkFlujo fecha order_id (Nombre_Cliente row) medio_pago
                              (prod_paid a) (domicilio_paid a) (saldo_total a)))
       (set_pedidos (alter (entregar medio_pago monto a) idx) st)).
Proof. intros Hf a. unfold mark_order_delivered. run. by rewrite Hf. Qed.

(** C1. Settling an existing order with amount [A >= 0] returns, without
    raising, the allocation [product = min(A, S)],
    [remainder = max(0, A - product)], [delivery = min(remainder, F)],
    [balance = (S - product) + (F - delivery)], where [S] and [F] are the
    order's product subtotal and delivery fee.  For S=20000, F=3000, A=23000
    this is (20000, 3000, 0); the balance is never negative, and it is 0 as
    soon as [A >= S + F] (the fee [F] of an order being 0 or the fixed
    delivery cost, hence not negative). *)
Theorem settle_order_allocation fecha order_id medio_pago A st idx row :
  find_row (λ r, ID_Pedido r =? order_id) (ws_pedidos st) = Some (idx, row) →
  0 ≤ A →
  0 ≤ Monto_domicilio row →
  let S := Subtotal_productos row in
  let F := Monto_domicilio row in
  ∃ a st',
    mark_order_delivered fecha order_id medio_pago A st = (inr a, st') ∧
    prod_paid a = Z.min A S ∧
    domicilio_paid a = Z.min (Z.max 0 (A - prod_paid a)) F ∧
    saldo_total a = (S - prod_paid a) + (F - domicilio_paid a) ∧
    (S = 20000 → F = 3000 → A = 23000 → a = mkAsignacion 20000 3000 0) ∧
    0 ≤ saldo_total a ∧
    (S + F ≤ A → saldo_total a = 0).
Proof.
  intros Hf HA HF S F.
  eexists _, _. split; [by apply mark_order_delivered_found|].
  fold S F. split; [done|]. split; [done|]. split; [done|]. split; [|split].
  - intros -> -> ->. reflexivity.
  - apply asignar_pago_saldo_nonneg.
  - intros Hover. unfold asignar_pago; simpl. lia.
Qed.

(** ** Customer registry *)

Lemma foldl_max_ge (xs : list Z) (x : Z) :
  x ≤ foldl Z.max x xs ∧ Forall (λ y, y ≤ foldl Z.max x xs) xs.
Proof.
  revert x. induction xs as [|y xs IH]; intros x; simpl.
  - split; [lia|constructor].
  - destruct (IH (Z.max x y)) as [H1 H2]. split; [lia|].
    constructor; [lia|done].
Qed.

Lemma foldl_max_elem (xs : list Z) (x : Z) : foldl Z.max x xs ∈ x :: xs.
Proof.
  revert x. induction xs as [|y xs IH]; intros x; simpl.
  - by left.
  - specialize (IH (Z.max x y)). apply elem_of_cons in IH as [IH|IH].
    + rewrite IH. destruct (Z.max_spec x y) as [[_ ->]|[_ ->]].
      * right; by left.
      * by left.
    + right; by right.
Qed.

Lemma next_id_gt (ids : list Z) : Forall (λ i, i < next_id ids) ids.
Proof.
  destruct ids as [|x xs]; [constructor|]. unfold next_id.
  destruct (foldl_max_ge xs x) as [H1 H2]. constructor; [lia|].
  eapply Forall_impl; [exact H2|]. simpl. intros; lia.
Qed.

Lemma next_id_fresh (ids : list Z) : next_id ids ∉ ids.
Proof.
  intros Hin. pose proof (next_id_gt ids) as H. rewrite Forall_forall in H.
  specialize (H _ Hin). lia.
Qed.

Lemma add_cliente_run nombre telefono direccion st :
  add_cliente nombre telefono direccion st
  = (inr (next_id (cli_ID_Cliente <$> ws_clientes st)),
     set_clientes (append_row
       (mkCliente (next_id (cli_ID_Cliente <$> ws_clientes st)) nombre telefono direccion)) st).
Proof. reflexivity. Qed.

(** C7, as the code has it. The customer form refuses an empty name: it
    shows the error "Nombre requerido", without raising, and writes nothing.
    [add_cliente] itself does not look at the name: for any name it returns,
    appends exactly one Customer row and writes nothing else; the id of the
    row, which it returns (and the form reports for a non-empty name), is
    the current maximum id plus one (1 on an empty registry), an id no
    existing row has. *)
Theorem register_customer_spec n t d st :
  let ids := cli_ID_Cliente <$> ws_clientes st in
  let cid := next_id ids in
  (∃ st',
     add_cliente n t d st = (inr cid, st') ∧
     ws_clientes st' = (ws_clientes st ++ [mkCliente cid n t d])%list ∧
     ws_pedidos st' = ws_pedidos st ∧ ws_inventario st' = ws_inventario st ∧
     ws_flujo st' = ws_flujo st ∧ ws_gastos st' = ws_gastos st ∧
     (n ≠ "" →
      form_add_cliente n t d st
      = (inr (st_success ("Cliente agregado con ID " +:+ pretty cid)), st'))) ∧
  (n = "" → form_add_cliente n t d st = (inr (st_error "Nombre requerido"), st)) ∧
  (ids = [] → cid = 1) ∧
  (ids ≠ [] → cid - 1 ∈ ids ∧ Forall (λ i, i ≤ cid - 1) ids) ∧
  cid ∉ ids.
Proof.
  intros ids cid. split; [|split; [|split; [|split]]].
  - eexists. split; [apply add_cliente_run|]. simpl.
    do 5 (split; [done|]).
    intros Hn. unfold form_add_cliente. by destruct (decide (n = "")).
  - intros ->. reflexivity.
  - intros Hids. subst cid. by rewrite Hids.
  - intros Hne. subst cid. destruct ids as [|x xs]; [done|].
    unfold next_id. replace (foldl Z.max x xs + 1 - 1) with (foldl Z.max x xs) by lia.
    split; [apply foldl_max_elem|].
    destruct (foldl_max_ge xs x) as [H1 H2]. by constructor.
  - apply next_id_fresh.
Qed.

(** ** Cash-flow summary *)

Lemma sum_col_app {A} (col : A → Z) (l1 l2 : list A) :
  sum_col col (l1 ++ l2) = sum_col col l1 + sum_col col l2.
Proof.
  unfold sum_col. induction l1 as [|x l1 IH]; simpl; [done|]. rewrite IH. lia.
Qed.

Lemma sum_col_fmap {A B} (g : A → B) (col : B → Z) (rows : list A) :
  sum_col col (g <$> rows) = sum_col (col ∘ g) rows.
Proof.
  unfold sum_col. induction rows as [|x rows IH]; [done|].
  rewrite fmap_cons. simpl. by rewrite IH.
Qed.

Lemma medios_disjuntos r : es_medio "Efectivo" r = true → es_medio "Transferencia" r = false.
Proof.
  unfold es_medio. intros H. apply String.eqb_eq in H. rewrite H. reflexivity.
Qed.

Lemma resumen_total_prod df_flujo df_gastos :
  total_prod (resumen df_flujo df_gastos) = sum_col Ingreso_productos_recibido df_flujo.
Proof.
  unfold resumen; simpl.
  induction df_flujo as [|r rows IH]; [done|].
  rewrite !filter_cons. simpl sum_col at 4. rewrite <- IH. clear IH.
  destruct (es_medio "Efectivo" r) eqn:He.
  - rewrite (medios_disjuntos r He). simpl.
    repeat case_decide; try done; simpl; lia.
  - destruct (es_medio "Transferencia" r) eqn:Ht; simpl;
      repeat case_decide; try done; simpl; lia.
Qed.

Lemma filter_es_medio m (rows : list Flujo) :
  filter (λ r, es_medio m r) rows = filter (λ r, fl_Medio_pago r = m) rows.
Proof.
  apply list_filter_iff. intros r. unfold es_medio.
  rewrite Is_true_true. apply String.eqb_eq.
Qed.

Lemma filter_otros (rows : list Flujo) :
  filter (λ r, negb (es_medio "Efectivo" r || es_medio "Transferencia" r)) rows
  = filter (λ r, fl_Medio_pago r ≠ "Efectivo" ∧ fl_Medio_pago r ≠ "Transferencia") rows.
Proof.
  apply list_filter_iff. intros r. unfold es_medio.
  rewrite Is_true_true, negb_true_iff, orb_false_iff.
  rewrite <- !not_true_iff_false, !String.eqb_eq. done.
Qed.

Lemma resumen_cons_flujo e df_flujo df_gastos :
  let r := resumen df_flujo df_gastos in
  let r' := resumen (e :: df_flujo) df_gastos in
  let p := Ingreso_productos_recibido e in
  let m := fl_Medio_pago e in
  total_prod_efectivo r'
  = (if decide (m = "Efectivo") then p else 0) + total_prod_efectivo r ∧
  total_prod_transfer r'
  = (if decide (m = "Transferencia") then p else 0) + total_prod_transfer r ∧
  total_prod_other r'
  = (if decide (m ≠ "Efectivo" ∧ m ≠ "Transferencia") then p else 0)
    + total_prod_other r ∧
  total_domicilios r' = Ingreso_domicilio_recibido e + total_domicilios r ∧
  total_gastos r' = total_gastos r.
Proof.
  unfold resumen. cbn [total_prod_efectivo total_prod_transfer total_prod_other
                       total_domicilios total_gastos].
  rewrite !filter_es_medio, !filter_otros, !filter_cons.
  split; [|split; [|split; [|split]]]; try done;
    case_decide; unfold sum_col; simpl; lia.
Qed.

(** C6. For tables whose amounts pandas adds exactly, the summary has these
    figures.  Product revenue is the sum of three buckets: the product
    amounts of the Efectivo entries, of the Transferencia entries, and of
    the entries with any other payment method; the net balance is product
    revenue minus expenses.  All figures are 0 for empty tables; one more
    cash-flow entry adds its product amount to the bucket of its payment
    method, hence to product revenue and to the net balance, and its
    delivery amount to delivery revenue only; one more expense adds its
    amount to the expenses and takes it from the net balance.  So delivery
    revenue never enters product revenue or the net balance: both are the
    same whatever the delivery amounts of the entries are. *)
Theorem resumen_spec df_flujo df_gastos :
  suma_exacta df_flujo df_gastos →
  let r := resumen df_flujo df_gastos in
  total_prod r = total_prod_efectivo r + total_prod_transfer r + total_prod_other r ∧
  saldo_real r = total_prod r - total_gastos r ∧
  resumen [] [] = mkResumen 0 0 0 0 0 0 0 ∧
  (∀ e,
     suma_exacta (e :: df_flujo) df_gastos →
     let r' := resumen (e :: df_flujo) df_gastos in
     let p := Ingreso_productos_recibido e in
     let m := fl_Medio_pago e in
     total_prod_efectivo r'
     = (if decide (m = "Efectivo") then p else 0) + total_prod_efectivo r ∧
     total_prod_transfer r'
     = (if decide (m = "Transferencia") then p else 0) + total_prod_transfer r ∧
     total_prod_other r'
     = (if decide (m ≠ "Efectivo" ∧ m ≠ "Transferencia") then p else 0)
       + total_prod_other r ∧
     total_prod r' = p + total_prod r ∧
     total_domicilios r' = Ingreso_domicilio_recibido e + total_domicilios r ∧
     total_gastos r' = total_gastos r ∧
     saldo_real r' = p + saldo_real r) ∧
  (∀ g,
     suma_exacta df_flujo (g :: df_gastos) →
     let r' := resumen df_flujo (g :: df_gastos) in
     total_gastos r' = ga_Monto g + total_gastos r ∧
     total_prod_efectivo r' = total_prod_efectivo r ∧
     total_prod_transfer r' = total_prod_transfer r ∧
     total_prod_other r' = total_prod_other r ∧
     total_prod r' = total_prod r ∧
     total_domicilios r' = total_domicilios r ∧
     saldo_real r' = saldo_real r - ga_Monto g) ∧
  (∀ df_flujo',
     suma_exacta df_flujo' df_gastos →
     (λ e, (fl_Medio_pago e, Ingreso_productos_recibido e)) <$> df_flujo'
     = (λ e, (fl_Medio_pago e, Ingreso_productos_recibido e)) <$> df_flujo →
     total_prod (resumen df_flujo' df_gastos) = total_prod r ∧
     saldo_real (resumen df_flujo' df_gastos) = saldo_real r).
Proof.
  intros _ r. subst r.
  pose proof (resumen_total_prod df_flujo df_gastos) as Htot.
  split; [done|]. split; [done|]. split; [done|]. split; [|split].
  - intros e _ r' p m. subst r' p m.
    destruct (resumen_cons_flujo e df_flujo df_gastos) as (He & Ht & Ho & Hd & Hg).
    pose proof (resumen_total_prod (e :: df_flujo) df_gastos) as Htot'.
    assert (total_prod (resumen (e :: df_flujo) df_gastos)
            = Ingreso_productos_recibido e + total_prod (resumen df_flujo df_gastos))
      as Hp by (by rewrite Htot', Htot).
    do 3 (split; [done|]). split; [done|]. split; [done|]. split; [done|].
    change (saldo_real (resumen ?fl ?g))
      with (total_prod (resumen fl g) - total_gastos (resumen fl g)).
    rewrite Hp, Hg. lia.
  - intros g _ r'. subst r'.
    assert (total_gastos (resumen df_flujo (g :: df_gastos))
            = ga_Monto g + total_gastos (resumen df_flujo df_gastos)) as Hg by done.
    split; [done|]. do 5 (split; [done|]).
    change (saldo_real (resumen ?fl ?g))
      with (total_prod (resumen fl g) - total_gastos (resumen fl g)).
    rewrite Hg. change (total_prod (resumen df_flujo (g :: df_gastos)))
      with (total_prod (resumen df_flujo df_gastos)). lia.
  - intros df_flujo' _ Heq.
    assert (total_prod (resumen df_flujo' df_gastos)
            = total_prod (resumen df_flujo df_gastos)) as Hsame.
    { rewrite Htot, resumen_total_prod.
      change Ingreso_productos_recibido
        with (snd ∘ (λ e, (fl_Medio_pago e, Ingreso_productos_recibido e))).
      by rewrite <- !sum_col_fmap, Heq. }
    split; [done|].
    change (saldo_real (resumen df_flujo' df_gastos))
      with (total_prod (resumen df_flujo' df_gastos) - sum_col ga_Monto df_gastos).
    by rewrite Hsame.
Qed.

(** ** Inventory rows *)

Section Inventory.
Implicit Types (rows inv : list InvRow) (p : string) (v : Z).

Local Abbreviation es p := (λ r : InvRow, String.eqb r.1 p).
Local Abbreviation poner v := (λ row : InvRow, (row.1, v)).

Lemma find_row_names p inv rows :
  inv.*1 = rows.*1 →
  match find_row (es p) inv, find_row (es p) rows with
  | Some (i, _), Some (j, _) => i = j
  | None, None => True
  | _, _ => False
  end.
Proof.
  revert rows. induction inv as [|[k s] inv IH]; intros [|[k' s'] rows]; try done.
  rewrite !fmap_cons. simpl. intros [= <- Hrest].
  destruct (String.eqb k p); [done|].
  specialize (IH rows Hrest).
  destruct (find_row (es p) inv) as [[i r]|], (find_row (es p) rows) as [[j r']|];
    try done. by f_equal.
Qed.

Lemma stock_of_None p rows : stock_of p rows = None ↔ p ∉ rows.*1.
Proof.
  unfold stock_of. induction rows as [|[k s] rows IH]; simpl.
  - split; [intros _; apply not_elem_of_nil|done].
  - rewrite not_elem_of_cons.
    destruct (String.eqb_spec k p) as [->|Hne].
    + split; [done|]. intros [? _]. done.
    + destruct (find_row (es p) rows) as [[i r]|].
      * split; [done|]. intros [_ H]. apply IH in H. done.
      * split; [|done]. intros _. split; [congruence|]. by apply IH.
Qed.

Lemma stock_of_cons p k s rows :
  stock_of p ((k, s) :: rows) = if decide (k = p) then Some s else stock_of p rows.
Proof.
  unfold stock_of. simpl. destruct (String.eqb_spec k p) as [->|Hne].
  - by rewrite decide_True.
  - rewrite decide_False by done. by destruct (find_row (es p) rows) as [[i r]|].
Qed.

Lemma stock_of_app p k v rows :
  stock_of p (rows ++ [(k, v)])
  = match stock_of p rows with
    | Some s => Some s
    | None => if decide (k = p) then Some v else None
    end.
Proof.
  induction rows as [|[k' s'] rows IH].
  - simpl. rewrite stock_of_cons. by case_decide.
  - rewrite <- app_comm_cons, !stock_of_cons.
    destruct (decide (k' = p)); [done|apply IH].
Qed.

Lemma stock_of_alter p p' v i r rows :
  find_row (es p) rows = Some (i, r) →
  stock_of p' (alter (poner v) i rows)
  = if decide (p = p') then Some v else stock_of p' rows.
Proof.
  revert i. induction rows as [|[k s] rows IH]; intros i; [done|]. simpl.
  destruct (String.eqb_spec k p) as [->|Hne].
  - intros [= <- <-]. simpl. rewrite !stock_of_cons. by case_decide.
  - destruct (find_row (es p) rows) as [[j r']|] eqn:Hf; [|done].
    intros [= <- <-]. simpl. rewrite !stock_of_cons.
    specialize (IH j eq_refl). unfold alter in IH. rewrite IH.
    repeat case_decide; congruence.
Qed.

Lemma names_alter v i rows : (alter (poner v) i rows).*1 = rows.*1.
Proof.
  revert i. induction rows as [|[k s] rows IH]; intros [|i]; try done.
  change (k :: (alter (poner v) i rows).*1 = k :: rows.*1). by rewrite IH.
Qed.

Lemma nonneg_alter v i rows :
  0 ≤ v → Forall (λ r : InvRow, 0 ≤ r.2) rows →
  Forall (λ r : InvRow, 0 ≤ r.2) (alter (poner v) i rows).
Proof.
  intros Hv Hall. revert i. induction Hall as [|r rows Hr Hall IH]; intros [|i]; simpl.
  - constructor.
  - constructor.
  - by constructor.
  - constructor; [done|]. apply IH.
Qed.

Lemma stock_of_find p rows i r :
  find_row (es p) rows = Some (i, r) → stock_of p rows = Some r.2.
Proof. unfold stock_of. by intros ->. Qed.

(** With one row per product the dict of [get_inventory_map] and the
    first-row lookup agree. *)
Lemma inventory_map_lookup p rows :
  NoDup rows.*1 → inventory_map rows !! p = stock_of p rows.
Proof.
  unfold inventory_map.
  induction rows as [|[k v] rows IH] using rev_ind; intros Hnd; [done|].
  rewrite foldl_app, stock_of_app. simpl.
  rewrite fmap_app in Hnd. apply NoDup_app in Hnd as (Hnd & Hk & _).
  rewrite lookup_insert. case_decide as Hkp.
  - subst k. destruct (stock_of p rows) as [s|] eqn:Hs; [|done].
    exfalso. assert (p ∈ rows.*1) as Hin.
    { destruct (decide (p ∈ rows.*1)) as [|Hn]; [done|].
      apply stock_of_None in Hn. congruence. }
    apply (Hk p Hin). simpl. by left.
  - rewrite (IH Hnd). by destruct (stock_of p rows).
Qed.
End Inventory.

(** ** The stock update loop *)

Lemma dict_get_None p (d : list (string * Z)) : dict_get p d = None ↔ p ∉ d.*1.
Proof.
  induction d as [|[k v] d IH]; simpl.
  - split; [intros _; apply not_elem_of_nil|done].
  - rewrite not_elem_of_cons. destruct (String.eqb_spec k p) as [->|Hne].
    + split; [done|]. by intros [? _].
    + rewrite IH. split; [|by intros [_ ?]]. intros ?. split; [congruence|done].
Qed.

Lemma dict_get_elem p q (d : list (string * Z)) :
  NoDup d.*1 → (p, q) ∈ d → dict_get p d = Some q.
Proof.
  induction d as [|[k v] d IH]; simpl; intros Hnd Hin.
  - by apply elem_of_nil in Hin.
  - apply NoDup_cons in Hnd as [Hk Hnd].
    apply elem_of_cons in Hin as [[= -> ->]|Hin].
    + by rewrite String.eqb_refl.
    + destruct (String.eqb_spec k p) as [->|Hne]; [|by apply IH].
      exfalso. apply Hk. apply (list_elem_of_fmap_2 fst) in Hin. exact Hin.
Qed.

(** The loop writes to the inventory sheet only, and the one exception it
    can raise is the [KeyError] of an inventory without rows. *)
Lemma update_inventory_loop_frame items : ∀ inv st res st',
  update_inventory_loop inv items st = (res, st') →
  ws_clientes st' = ws_clientes st ∧ ws_pedidos st' = ws_pedidos st ∧
  ws_flujo st' = ws_flujo st ∧ ws_gastos st' = ws_gastos st ∧
  (∀ e, res = inl e → e = KeyError "Producto").
Proof.
  induction items as [|[p q] rest IH]; intros inv st res st' H; simpl in H.
  - injection H as <- <-. repeat split; done.
  - destruct inv as [|r0 inv].
    + injection H as <- <-. repeat split; try done. by intros e [= <-].
    + destruct (find_row _ (r0 :: inv)) as [[idx r]|]; run; simpl in H;
        apply IH in H; simpl in H; exact H.
Qed.

Lemma update_inventory_loop_nonneg items : ∀ inv st,
  stock_nonneg st → stock_nonneg (update_inventory_loop inv items st).2.
Proof.
  unfold stock_nonneg.
  induction items as [|[p q] rest IH]; intros inv st Hst; simpl; [done|].
  destruct inv as [|r0 inv]; [done|].
  destruct (find_row _ (r0 :: inv)) as [[idx r]|]; run; simpl; apply IH; simpl.
  - apply nonneg_alter; [lia|done].
  - apply Forall_app. split; [done|]. constructor; [simpl; lia|constructor].
Qed.

Lemma update_inventory_loop_ok items : ∀ inv st,
  NoDup items.*1 →
  inv.*1 = (ws_inventario st).*1 →
  (∀ p, p ∈ items.*1 → stock_of p inv = stock_of p (ws_inventario st)) →
  (items = [] ∨ inv ≠ []) →
  ∃ st', update_inventory_loop inv items st = (inr tt, st') ∧
    ∀ p, stock_of p (ws_inventario st')
         = match dict_get p items with
           | Some q => Some (Z.max 0 (default 0 (stock_of p (ws_inventario st)) - q))
           | None => stock_of p (ws_inventario st)
           end.
Proof.
  induction items as [|[p0 q0] rest IH]; intros inv st Hnd Hnames Hstock Hne.
  - exists st. done.
  - destruct Hne as [|Hne]; [done|].
    rewrite fmap_cons in Hnd. apply NoDup_cons in Hnd as [Hp0 Hnd]. simpl in Hp0.
    simpl. destruct inv as [|r0 inv]; [done|].
    pose proof (find_row_names p0 _ _ Hnames) as Hfn.
    pose proof (Hstock p0 ltac:(by left)) as Hs0.
    destruct (find_row (λ r : InvRow, String.eqb r.1 p0) (r0 :: inv)) as [[idx r]|] eqn:Hf.
    + destruct (find_row (λ r : InvRow, String.eqb r.1 p0) (ws_inventario st)) as [[idx' r']|] eqn:Hf'; [|done].
      subst idx'. rewrite (stock_of_find _ _ _ _ Hf), (stock_of_find _ _ _ _ Hf') in Hs0.
      injection Hs0 as Hs0. run. simpl.
      destruct (IH (r0 :: inv)
                  (set_inventario (alter (λ row : InvRow, (row.1, Z.max 0 (r.2 - q0))) idx) st))
        as (st' & Hrun & Hst'); [done| | |by right|].
      * simpl. by rewrite names_alter.
      * intros p Hp. simpl. rewrite (stock_of_alter _ _ _ _ _ _ Hf').
        rewrite decide_False by (intros ->; done).
        apply Hstock. by right.
      * exists st'. split; [done|]. intros p. rewrite Hst'. simpl.
        rewrite (stock_of_alter _ _ _ _ _ _ Hf').
        destruct (String.eqb_spec p0 p) as [->|Hpp].
        -- rewrite decide_True by done.
           apply dict_get_None in Hp0. rewrite Hp0.
           rewrite (stock_of_find _ _ _ _ Hf'). simpl. by rewrite Hs0.
        -- by rewrite decide_False.
    + destruct (find_row (λ r : InvRow, String.eqb r.1 p0) (ws_inventario st)) as [[idx' r']|] eqn:Hf'; [done|].
      assert (stock_of p0 (ws_inventario st) = None) as Hnone.
      { unfold stock_of. by rewrite Hf'. }
      run. simpl.
      destruct (IH (append_row (p0, Z.max 0 (- q0)) (ws_inventario st))
                  (set_inventario (append_row (p0, Z.max 0 (- q0))) st))
        as (st' & Hrun & Hst'); [done|done|done| |].
      * right. unfold append_row. by destruct (ws_inventario st).
      * exists st'. split; [done|]. intros p. rewrite Hst'. simpl. unfold append_row.
        rewrite stock_of_app.
        destruct (String.eqb_spec p0 p) as [->|Hpp].
        -- rewrite decide_True by done. rewrite Hnone.
           apply dict_get_None in Hp0. rewrite Hp0. simpl. done.
        -- rewrite decide_False by done.
           by destruct (dict_get p rest), (stock_of p (ws_inventario st)).
Qed.

(** ** Validation and the shape of [create_order] *)

Lemma validar_stock_pure m items st : (validar_stock m items st).2 = st.
Proof.
  induction items as [|[p q] rest IH]; simpl; [done|].
  destruct (q <=? 0); [done|].
  destruct (m !! p) as [s|]; [|done].
  by destruct (s <? q).
Qed.

Lemma validar_stock_ok m items st :
  Forall (item_ok m) items → validar_stock m items st = (inr tt, st).
Proof.
  induction 1 as [|[p q] rest Hok _ IH]; simpl; [done|].
  destruct (Z.leb_spec q 0) as [|Hq]; [done|].
  destruct Hok as [Hle|(s & Hs & Hle)]; simpl in *; [lia|].
  rewrite Hs. destruct (Z.ltb_spec s q); [lia|done].
Qed.

Lemma validar_stock_first m pre p q post st :
  Forall (item_ok m) pre → 0 < q →
  validar_stock m (pre ++ (p, q) :: post) st
  = match m !! p with
    | None => (inl (raised_as (ValidationError p)), st)
    | Some s =>
      if s <? q then (inl (raised_as (InsufficientStockError p s q)), st)
      else validar_stock m post st
    end.
Proof.
  intros Hpre Hq. induction Hpre as [|[p' q'] pre Hok _ IH]; simpl.
  - destruct (Z.leb_spec q 0); [lia|].
    destruct (m !! p) as [s|]; [|done]. by destruct (s <? q).
  - destruct (Z.leb_spec q' 0) as [|Hq']; [done|].
    destruct Hok as [Hle|(s & Hs & Hle)]; simpl in *; [lia|].
    rewrite Hs. destruct (Z.ltb_spec s q'); [lia|done].
Qed.

Lemma validar_stock_cases m items st :
  (Forall (item_ok m) items ∧ validar_stock m items st = (inr tt, st)) ∨
  (∃ pre p q post k,
     items = (pre ++ (p, q) :: post)%list ∧ Forall (item_ok m) pre ∧ 0 < q ∧
     validar_stock m items st = (inl (raised_as k), st) ∧
     ((m !! p = None ∧ k = ValidationError p) ∨
      (∃ s, m !! p = Some s ∧ s < q ∧ k = InsufficientStockError p s q))).
Proof.
  induction items as [|[p q] rest IH].
  - left. split; [constructor|done].
  - assert (item_ok m (p, q) ∨ (0 < q ∧
      ((m !! p = None) ∨ ∃ s, m !! p = Some s ∧ s < q))) as [Hok|[Hq Hbad]].
    { unfold item_ok. simpl. destruct (Z.leb_spec q 0); [by left; left|].
      destruct (m !! p) as [s|] eqn:Hs.
      - destruct (Z.ltb_spec s q).
        + right. split; [done|]. right. by exists s.
        + left. right. by exists s.
      - right. split; [done|]. by left. }
    + destruct IH as [[Hall Hrun]|(pre & p' & q' & post & k & -> & Hpre & Hq & Hrun & Hk)].
      * left. split; [by constructor|]. apply validar_stock_ok. by constructor.
      * right. exists ((p, q) :: pre), p', q', post, k.
        split; [done|]. split; [by constructor|]. split; [done|]. split; [|done].
        rewrite app_comm_cons.
        rewrite validar_stock_first in Hrun |- * by (done || by constructor). done.
    + right. exists [], p, q, rest.
      destruct Hbad as [Hnone|(s & Hs & Hlt)].
      * exists (ValidationError p). split; [done|]. split; [constructor|].
        split; [done|]. split; [|by left].
        etrans; [exact (validar_stock_first m [] p q rest st (Forall_nil_2 _) Hq)|].
        by rewrite Hnone.
      * exists (InsufficientStockError p s q). split; [done|]. split; [constructor|].
        split; [done|]. split; [|right; by exists s].
        etrans; [exact (validar_stock_first m [] p q rest st (Forall_nil_2 _) Hq)|].
        rewrite Hs. by destruct (Z.ltb_spec s q); [|lia].
Qed.

Lemma find_cliente_None cliente_id st :
  find_row (λ c, cli_ID_Cliente c =? cliente_id) (ws_clientes st) = None
  ↔ ¬ cliente_registrado cliente_id st.
Proof.
  unfold cliente_registrado. rewrite find_row_None.
  induction (ws_clientes st) as [|c rows IH].
  - split; [intros _; apply not_elem_of_nil|constructor].
  - rewrite fmap_cons, not_elem_of_cons, Forall_cons, IH.
    destruct (Z.eqb_spec (cli_ID_Cliente c) cliente_id); split; intros [H1 H2];
      (done || split; congruence || done).
Qed.

Lemma create_order_no_cliente fecha cliente_id productos_cant domicilio_bool st :
  ¬ cliente_registrado cliente_id st →
  create_order fecha cliente_id productos_cant domicilio_bool st
  = (inl (raised_as NotFoundError), st).
Proof.
  intros H. apply find_cliente_None in H. unfold create_order. run. by rewrite H.
Qed.

Lemma create_order_cliente fecha cliente_id productos_cant domicilio_bool st i c :
  find_row (λ c, cli_ID_Cliente c =? cliente_id) (ws_clientes st) = Some (i, c) →
  create_order fecha cliente_id productos_cant domicilio_bool st
  = match validar_stock (inventory_map (ws_inventario st)) productos_cant st with
    | (inl e, _) => (inl e, st)
    | (inr _, _) =>
      let pid := next_id (ID_Pedido <$> ws_pedidos st) in
      let row := fila_pedido fecha cliente_id (cli_Nombre c) productos_cant
                             domicilio_bool pid in
      match update_inventory_loop (ws_inventario st) productos_cant
              (set_pedidos (append_row row) st) with
      | (inl e, st2) => (inl e, st2)
      | (inr _, st2) => (inr pid, st2)
      end
    end.
Proof.
  intros Hf. unfold create_order, get_inventory_map, update_inventory_after_order. run.
  rewrite Hf.
  pose proof (validar_stock_pure (inventory_map (ws_inventario st)) productos_cant st) as Hp.
  destruct (validar_stock _ productos_cant st) as [[e|[]] st0]; simpl in Hp; subst st0;
    [done|].
  simpl. unfold fila_pedido.
  by destruct (update_inventory_loop _ _ _) as [[e|[]] st2].
Qed.

Lemma cliente_registrado_find cliente_id st :
  cliente_registrado cliente_id st →
  ∃ i c, find_row (λ c, cli_ID_Cliente c =? cliente_id) (ws_clientes st) = Some (i, c).
Proof.
  intros H. destruct (find_row _ (ws_clientes st)) as [[i c]|] eqn:Hf; [by eauto|].
  apply find_cliente_None in Hf. done.
Qed.

Lemma acumular_foldl items : ∀ acc,
  foldl acumular acc items
  = (acc.1 + subtotal_de items,
     (acc.2 ++ ((λ it : string * Z, linea_detalle it.1 it.2 (precio_de it.1))
                  <$> filter (λ it : string * Z, 0 < it.2) items))%list).
Proof.
  unfold subtotal_de, sum_col.
  induction items as [|[p q] rest IH]; intros [s d]; simpl.
  - f_equal; [lia|]. by rewrite app_nil_r.
  - rewrite IH. unfold acumular. simpl. rewrite filter_cons. simpl.
    f_equal; [lia|].
    destruct (Z.ltb_spec 0 q).
    + rewrite decide_True by done. by rewrite fmap_cons, <- app_assoc.
    + by rewrite decide_False by lia.
Qed.

Lemma fila_pedido_fields fecha cliente_id name items dom pid :
  fila_pedido fecha cliente_id name items dom pid
  = mkPedido pid fecha cliente_id name (detalle_pedido items) (subtotal_de items)
      (if dom then DOMICILIO_COST else 0)
      (subtotal_de items + (if dom then DOMICILIO_COST else 0)) "Pendiente" "" 0
      (subtotal_de items).
Proof. unfold fila_pedido, detalle_pedido. by rewrite acumular_foldl. Qed.

Lemma update_inventory_loop_total items : ∀ inv st,
  inv ≠ [] → (update_inventory_loop inv items st).1 = inr tt.
Proof.
  induction items as [|[p q] rest IH]; intros inv st Hne; simpl; [done|].
  destruct inv as [|r0 inv]; [done|].
  destruct (find_row _ (r0 :: inv)) as [[idx r]|]; run; simpl; apply IH; [done|].
  unfold append_row. by destruct (ws_inventario st).
Qed.

Lemma raised_as_ValueError k : ∃ msg, raised_as k = ValueError msg.
Proof. destruct k; simpl; eauto. Qed.

(** A failed check stops [create_order] before its first write. *)
Lemma create_order_falla fecha cliente_id productos_cant domicilio_bool st :
  validacion_falla cliente_id productos_cant st →
  ∃ k, create_order fecha cliente_id productos_cant domicilio_bool st
       = (inl (raised_as k), st).
Proof.
  intros Hfalla.
  destruct (find_row (λ c, cli_ID_Cliente c =? cliente_id) (ws_clientes st))
    as [[i c]|] eqn:Hf;
    [|apply find_cliente_None in Hf; exists NotFoundError;
      by apply create_order_no_cliente].
  destruct Hfalla as [Hreg|(p & q & Hin & Hq & Hbad)].
  { apply find_cliente_None in Hreg. congruence. }
  rewrite (create_order_cliente _ _ _ _ _ _ _ Hf).
  destruct (validar_stock_cases (inventory_map (ws_inventario st)) productos_cant st)
    as [[Hall _]|(pre & p' & q' & post & k & _ & _ & _ & Hrun & _)].
  - exfalso. rewrite Forall_forall in Hall.
    destruct (Hall _ Hin) as [Hle|(s & Hs & Hle)]; simpl in *; [lia|].
    rewrite Hs in Hbad. lia.
  - exists k. by rewrite Hrun.
Qed.

(** What a returning [create_order] did. *)
Lemma create_order_success fecha cliente_id productos_cant domicilio_bool st pid st' :
  create_order fecha cliente_id productos_cant domicilio_bool st = (inr pid, st') →
  ∃ i c,
    find_row (λ c, cli_ID_Cliente c =? cliente_id) (ws_clientes st) = Some (i, c) ∧
    Forall (item_ok (inventory_map (ws_inventario st))) productos_cant ∧
    pid = next_id (ID_Pedido <$> ws_pedidos st) ∧
    update_inventory_loop (ws_inventario st) productos_cant
      (set_pedidos
         (append_row (fila_pedido fecha cliente_id (cli_Nombre c) productos_cant
                                  domicilio_bool pid)) st)
    = (inr tt, st') ∧
    ws_pedidos st'
    = (ws_pedidos st ++ [fila_pedido fecha cliente_id (cli_Nombre c) productos_cant
                                     domicilio_bool pid])%list.
Proof.
  intros Hrun.
  destruct (find_row (λ c, cli_ID_Cliente c =? cliente_id) (ws_clientes st))
    as [[i c]|] eqn:Hf.
  - rewrite (create_order_cliente _ _ _ _ _ _ _ Hf) in Hrun.
    destruct (validar_stock_cases (inventory_map (ws_inventario st)) productos_cant st)
      as [[Hall Hv]|(pre & p' & q' & post & k & _ & _ & _ & Hv & _)];
      rewrite Hv in Hrun; [|done].
    simpl in Hrun.
    destruct (update_inventory_loop _ _ _) as [[e|[]] st2] eqn:Hloop; [done|].
    injection Hrun as <- <-.
    exists i, c. split; [done|]. split; [done|]. split; [done|]. split; [done|].
    apply update_inventory_loop_frame in Hloop as (_ & Hped & _). by rewrite Hped.
  - apply find_cliente_None in Hf.
    by rewrite (create_order_no_cliente _ _ _ _ _ Hf) in Hrun.
Qed.

(** With its checks passed and an inventory that has rows, [create_order]
    returns. *)
Lemma create_order_returns fecha cliente_id productos_cant domicilio_bool st :
  cliente_registrado cliente_id st →
  Forall (item_ok (inventory_map (ws_inventario st))) productos_cant →
  ws_inventario st ≠ [] →
  ∃ st', create_order fecha cliente_id productos_cant domicilio_bool st
         = (inr (next_id (ID_Pedido <$> ws_pedidos st)), st').
Proof.
  intros Hreg Hall Hne.
  destruct (cliente_registrado_find _ _ Hreg) as (i & c & Hf).
  rewrite (create_order_cliente _ _ _ _ _ _ _ Hf), (validar_stock_ok _ _ _ Hall).
  simpl.
  pose proof (update_inventory_loop_total productos_cant (ws_inventario st)
    (set_pedidos (append_row (fila_pedido fecha cliente_id (cli_Nombre c) productos_cant
       domicilio_bool (next_id (ID_Pedido <$> ws_pedidos st)))) st) Hne) as Htot.
  destruct (update_inventory_loop _ _ _) as [[e|[]] st2]; [done|]. by exists st2.
Qed.

Lemma dict_get_Some p v (d : list (string * Z)) : dict_get p d = Some v → (p, v) ∈ d.
Proof.
  induction d as [|[k w] d IH]; simpl; [done|].
  destruct (String.eqb_spec k p) as [->|_].
  - intros [= ->]. by left.
  - intros H. right. by apply IH.
Qed.

Lemma PRODUCTOS_nonneg : Forall (λ pp : string * Z, 0 ≤ pp.2) PRODUCTOS.
Proof. unfold PRODUCTOS. repeat constructor; simpl; lia. Qed.

Lemma precio_de_nonneg p : 0 ≤ precio_de p.
Proof.
  unfold precio_de. destruct (dict_get p PRODUCTOS) as [v|] eqn:Hg; [|done].
  apply dict_get_Some in Hg. pose proof PRODUCTOS_nonneg as H.
  rewrite Forall_forall in H. exact (H _ Hg).
Qed.

Lemma subtotal_de_nonneg items :
  Forall (λ it : string * Z, 0 ≤ it.2) items → 0 ≤ subtotal_de items.
Proof.
  unfold subtotal_de, sum_col. induction 1 as [|[p q] rest Hq _ IH]; simpl in *; [done|].
  pose proof (precio_de_nonneg p). nia.
Qed.

Lemma stock_of_nonneg p s st :
  stock_nonneg st → stock_of p (ws_inventario st) = Some s → 0 ≤ s.
Proof.
  unfold stock_nonneg, stock_of. intros Hall Hs.
  destruct (find_row _ (ws_inventario st)) as [[i r]|] eqn:Hf; [|done].
  injection Hs as <-. apply find_row_Some in Hf as [Hi _].
  rewrite Forall_forall in Hall. apply Hall. by eapply list_elem_of_lookup_2.
Qed.

(** Stock left by a returning [create_order], product by product. *)
Lemma create_order_stock fecha cliente_id productos_cant domicilio_bool st pid st' :
  NoDup productos_cant.*1 →
  create_order fecha cliente_id productos_cant domicilio_bool st = (inr pid, st') →
  ∀ p, stock_of p (ws_inventario st')
       = match dict_get p productos_cant with
         | Some q => Some (Z.max 0 (default 0 (stock_of p (ws_inventario st)) - q))
         | None => stock_of p (ws_inventario st)
         end.
Proof.
  intros Hnd Hrun.
  apply create_order_success in Hrun as (i & c & _ & _ & _ & Hloop & _).
  destruct productos_cant as [|it rest].
  { simpl in Hloop. injection Hloop as <-. done. }
  destruct (ws_inventario st) as [|r0 inv] eqn:Hinv.
  { simpl in Hloop. by destruct it. }
  edestruct (update_inventory_loop_ok (it :: rest) (r0 :: inv)) as (st2 & Hrun2 & Hst2);
    [exact Hnd| | |by right|].
  3: { rewrite Hloop in Hrun2. injection Hrun2 as <-.
       intros p. rewrite Hst2. simpl. by rewrite Hinv. }
  - simpl. by rewrite Hinv.
  - intros p _. simpl. by rewrite Hinv.
Qed.

(** ** Order placement: errors *)

(** C2. [create_order] is all-or-nothing: when any of its checks fails
    (unknown customer, a product with a positive quantity that is not in the
    inventory, a positive quantity above the stock), it raises a
    [ValueError] with the sheets exactly as they were, so no Order row was
    appended and no stock was changed; the checks come before the first
    write. *)
Theorem create_order_all_or_nothing fecha cliente_id productos_cant domicilio_bool st :
  validacion_falla cliente_id productos_cant st →
  ∃ msg st',
    create_order fecha cliente_id productos_cant domicilio_bool st
    = (inl (ValueError msg), st') ∧
    st' = st ∧
    ws_pedidos st' = ws_pedidos st ∧
    ws_inventario st' = ws_inventario st.
Proof.
  intros Hfalla.
  destruct (create_order_falla fecha _ _ domicilio_bool _ Hfalla) as [k Hrun].
  destruct (raised_as_ValueError k) as [msg Hk].
  exists msg, st. by rewrite Hrun, Hk.
Qed.

Lemma create_order_all_or_nothing_witness :
  validacion_falla 1 [("Arandanos_125g", 2); ("Arandanos_250g", 11)] ejemplo ∧
  ∃ msg st',
    create_order "2024-05-01 10:00:00" 1 [("Arandanos_125g", 2); ("Arandanos_250g", 11)]
                 false ejemplo
    = (inl (ValueError msg), st') ∧
    st' = ejemplo ∧
    ws_pedidos st' = ws_pedidos ejemplo ∧
    ws_inventario st' = ws_inventario ejemplo.
Proof.
  assert (validacion_falla 1 [("Arandanos_125g", 2); ("Arandanos_250g", 11)] ejemplo)
    as Hfalla.
  { right. exists "Arandanos_250g", 11. split; [|split; [lia|]].
    - right; left.
    - vm_compute. reflexivity. }
  split; [exact Hfalla|].
  exact (create_order_all_or_nothing _ _ _ _ _ Hfalla).
Defined.

(** C4. [create_order] fails with the stated kinds: not-found when the
    customer id is not in the registry; otherwise, at the first item (in
    the order the mapping is walked) with a positive quantity that does not
    pass, validation error when its product is not in the inventory map and
    insufficient-stock, carrying the available and the requested amount,
    when its quantity is above the stock.  Every [ValueError] of
    [create_order] is one of these three, under its condition. *)
Theorem create_order_error_kinds fecha cliente_id productos_cant domicilio_bool st :
  let inv_map := inventory_map (ws_inventario st) in
  let run := create_order fecha cliente_id productos_cant domicilio_bool st in
  (¬ cliente_registrado cliente_id st → run = (inl (raised_as NotFoundError), st)) ∧
  (cliente_registrado cliente_id st →
   ∀ pre p q post,
     productos_cant = (pre ++ (p, q) :: post)%list →
     Forall (item_ok inv_map) pre → 0 < q →
     (inv_map !! p = None → run = (inl (raised_as (ValidationError p)), st)) ∧
     (∀ disponible, inv_map !! p = Some disponible → disponible < q →
        run = (inl (raised_as (InsufficientStockError p disponible q)), st))) ∧
  (∀ msg st', run = (inl (ValueError msg), st') →
     ∃ k, ValueError msg = raised_as k ∧
       match k with
       | NotFoundError => ¬ cliente_registrado cliente_id st
       | ValidationError p =>
         cliente_registrado cliente_id st ∧
         ∃ q, (p, q) ∈ productos_cant ∧ 0 < q ∧ inv_map !! p = None
       | InsufficientStockError p disponible q =>
         cliente_registrado cliente_id st ∧
         (p, q) ∈ productos_cant ∧ inv_map !! p = Some disponible ∧ disponible < q
       end).
Proof.
  intros inv_map run. subst run. split; [|split].
  - apply create_order_no_cliente.
  - intros Hreg pre p q post -> Hpre Hq.
    destruct (cliente_registrado_find _ _ Hreg) as (i & c & Hf).
    rewrite (create_order_cliente _ _ _ _ _ _ _ Hf).
    rewrite (validar_stock_first _ _ _ _ _ _ Hpre Hq). fold inv_map. split.
    + by intros ->.
    + intros s -> Hlt. by destruct (Z.ltb_spec s q); [|lia].
  - intros msg st' Hrun.
    destruct (find_row (λ c, cli_ID_Cliente c =? cliente_id) (ws_clientes st))
      as [[i c]|] eqn:Hf.
    + assert (cliente_registrado cliente_id st) as Hreg.
      { unfold cliente_registrado. apply find_row_Some in Hf as [Hi Hc].
        apply Z.eqb_eq in Hc. rewrite <- Hc.
        apply list_elem_of_fmap_2. by eapply list_elem_of_lookup_2. }
      rewrite (create_order_cliente _ _ _ _ _ _ _ Hf) in Hrun.
      destruct (validar_stock_cases inv_map productos_cant st)
        as [[_ Hv]|(pre & p & q & post & k & Hitems & _ & Hq & Hv & Hk)];
        fold inv_map in Hrun; rewrite Hv in Hrun.
      * simpl in Hrun.
        destruct (update_inventory_loop _ _ _) as [[e|[]] st2] eqn:Hloop; [|done].
        apply update_inventory_loop_frame in Hloop as (_ & _ & _ & _ & He).
        specialize (He e eq_refl). subst e. done.
      * injection Hrun as Hmsg <-. exists k. split; [done|].
        assert ((p, q) ∈ productos_cant) as Hin.
        { rewrite Hitems. apply elem_of_app. right. by left. }
        destruct Hk as [[Hnone ->]|(s & Hs & Hlt & ->)]; [by eauto|done].
    + apply find_cliente_None in Hf.
      exists NotFoundError. rewrite (create_order_no_cliente _ _ _ _ _ Hf) in Hrun.
      injection Hrun as <- _. done.
Qed.

Lemma create_order_error_kinds_witness :
  create_order "2024-05-01 10:00:00" 1 [("Arandanos_125g", 11)] false ejemplo
  = (inl (raised_as (InsufficientStockError "Arandanos_125g" 10 11)), ejemplo) ∧
  create_order "2024-05-01 10:00:00" 1 [("Fresas", 1)] false ejemplo
  = (inl (raised_as (ValidationError "Fresas")), ejemplo) ∧
  create_order "2024-05-01 10:00:00" 7 [("Arandanos_125g", 1)] false ejemplo
  = (inl (raised_as NotFoundError), ejemplo).
Proof.
  assert (cliente_registrado 1 ejemplo) as Hreg by (vm_compute; left).
  split; [|split].
  - destruct (create_order_error_kinds "2024-05-01 10:00:00" 1
                [("Arandanos_125g", 11)] false ejemplo) as (_ & H & _).
    destruct (H Hreg [] "Arandanos_125g" 11 [] eq_refl (Forall_nil_2 _) ltac:(lia))
      as [_ H2].
    apply H2; [vm_compute; reflexivity|lia].
  - destruct (create_order_error_kinds "2024-05-01 10:00:00" 1
                [("Fresas", 1)] false ejemplo) as (_ & H & _).
    destruct (H Hreg [] "Fresas" 1 [] eq_refl (Forall_nil_2 _) ltac:(lia)) as [H1 _].
    apply H1. vm_compute. reflexivity.
  - destruct (create_order_error_kinds "2024-05-01 10:00:00" 7
                [("Arandanos_125g", 1)] false ejemplo) as (H & _).
    apply H. vm_compute. intros Hin. inversion Hin as [|? ? ? Hin']. inversion Hin'.
Defined.

Lemma settle_order_allocation_witness :
  ∃ a st',
    mark_order_delivered "2024-05-02 09:00:00" 1 "Efectivo" 23000 ejemplo_con_pedido
    = (inr a, st') ∧
    a = mkAsignacion 20000 3000 0 ∧ saldo_total a = 0.
Proof.
  edestruct (settle_order_allocation "2024-05-02 09:00:00" 1 "Efectivo" 23000
               ejemplo_con_pedido)
    as (a & st' & Hrun & _ & _ & _ & Hex & _ & Hover);
    [vm_compute; reflexivity|lia|simpl; lia|].
  exists a, st'. split; [exact Hrun|]. split.
  - apply Hex; reflexivity.
  - apply Hover. simpl. lia.
Defined.

Lemma register_customer_spec_witness :
  ∃ st',
    add_cliente "Luis" "300" "Calle 2" ejemplo = (inr 2, st') ∧
    ws_clientes st'
    = [mkCliente 1 "Ana" "3001234567" "Calle 1"; mkCliente 2 "Luis" "300" "Calle 2"] ∧
    form_add_cliente "Luis" "300" "Calle 2" ejemplo
    = (inr (st_success "Cliente agregado con ID 2"), st').
Proof.
  destruct (register_customer_spec "Luis" "300" "Calle 2" ejemplo)
    as ((st' & Hrun & Hcli & _ & _ & _ & _ & Hform) & _).
  exists st'. split; [exact Hrun|]. split; [exact Hcli|]. by apply Hform.
Defined.

(** C7 as stated fails: with an empty name [add_cliente] does not fail, it
    registers a customer without a name; and the form's refusal is an error
    message of a handler that returns, not an exception. *)
Lemma register_customer_counterexample :
  (∃ st',
     add_cliente "" "300" "Calle 2" ejemplo = (inr 2, st') ∧
     ws_clientes st'
     = [mkCliente 1 "Ana" "3001234567" "Calle 1"; mkCliente 2 "" "300" "Calle 2"]) ∧
  form_add_cliente "" "300" "Calle 2" ejemplo
  = (inr (st_error "Nombre requerido"), ejemplo).
Proof. split; [eexists; split; reflexivity|reflexivity]. Qed.

Lemma resumen_spec_witness :
  resumen [mkFlujo "2024-05-04 09:00:00" 3 "Eva" "Pago parcial" 5000 900000 15000;
           mkFlujo "2024-05-03 09:00:00" 2 "Luis" "Transferencia" 10000 0 0;
           mkFlujo "2024-05-02 09:00:00" 1 "Ana" "Efectivo" 20000 3000 0]
          [mkGasto "2024-05-02 12:00:00" "cajas" 7000;
           mkGasto "2024-05-03 12:00:00" "transporte" 1000]
  = mkResumen 20000 10000 5000 35000 903000 8000 27000.
Proof.
  pose (fl := [mkFlujo "2024-05-03 09:00:00" 2 "Luis" "Transferencia" 10000 0 0;
               mkFlujo "2024-05-02 09:00:00" 1 "Ana" "Efectivo" 20000 3000 0]).
  pose (ga := [mkGasto "2024-05-02 12:00:00" "cajas" 7000;
               mkGasto "2024-05-03 12:00:00" "transporte" 1000]).
  destruct (resumen_spec fl ga) as (_ & _ & _ & H & _);
    [vm_compute; discriminate|].
  destruct (H (mkFlujo "2024-05-04 09:00:00" 3 "Eva" "Pago parcial" 5000 900000 15000))
    as (He & Ht & Ho & Hp & Hd & Hg & Hs); [vm_compute; discriminate|].
  fold fl ga.
  destruct (resumen (mkFlujo "2024-05-04 09:00:00" 3 "Eva" "Pago parcial" 5000 900000 15000
                     :: fl) ga) as [e t o p d g s].
  cbn [total_prod_efectivo total_prod_transfer total_prod_other total_prod
       total_domicilios total_gastos saldo_real] in *.
  rewrite He, Ht, Ho, Hp, Hd, Hg, Hs. vm_compute. reflexivity.
Defined.

(** ** Order placement: the appended row *)

(** C5. A returning [create_order] appended one Order row: its subtotal is
    the sum over the line items of catalog price (0 for a product outside
    the catalog) times quantity, its delivery fee is the fixed delivery cost
    when delivery was requested and 0 otherwise, its total is subtotal plus
    fee, its status is Pendiente, nothing is paid, and its outstanding
    balance is the subtotal, without the fee. *)
Theorem create_order_row fecha cliente_id productos_cant domicilio_bool st pid st' :
  create_order fecha cliente_id productos_cant domicilio_bool st = (inr pid, st') →
  ∃ row,
    ws_pedidos st' = (ws_pedidos st ++ [row])%list ∧
    ID_Pedido row = pid ∧
    Subtotal_productos row
    = sum_col (λ it : string * Z, default 0 (dict_get it.1 PRODUCTOS) * it.2)
              productos_cant ∧
    Monto_domicilio row = (if domicilio_bool then DOMICILIO_COST else 0) ∧
    Total_pedido row = Subtotal_productos row + Monto_domicilio row ∧
    Estado row = "Pendiente" ∧
    Medio_pago row = "" ∧
    Monto_pagado row = 0 ∧
    Saldo_pendiente row = Subtotal_productos row.
Proof.
  intros Hrun.
  apply create_order_success in Hrun as (i & c & _ & _ & _ & _ & Hped).
  eexists. split; [exact Hped|]. rewrite fila_pedido_fields. simpl.
  repeat split.
Qed.

Lemma create_order_row_witness :
  ∃ row,
    ws_pedidos ejemplo_con_pedido = [row] ∧
    Subtotal_productos row = 20000 ∧ Monto_domicilio row = 3000 ∧
    Total_pedido row = 23000 ∧ Saldo_pendiente row = 20000.
Proof.
  destruct (create_order_row "2024-05-01 10:00:00" 1 [("Arandanos_500g", 1)] true ejemplo
              1 ejemplo_con_pedido)
    as (row & Hped & _ & Hsub & Hdom & Htot & _ & _ & _ & Hsaldo);
    [vm_compute; reflexivity|].
  exists row. split; [exact Hped|].
  assert (Subtotal_productos row = 20000) as Hs by (rewrite Hsub; reflexivity).
  assert (Monto_domicilio row = 3000) as Hd by (rewrite Hdom; reflexivity).
  split; [exact Hs|]. split; [exact Hd|]. split; [|by rewrite Hsaldo].
  rewrite Htot, Hs, Hd. reflexivity.
Defined.

(** ** Order placement: the detail line *)

Lemma lineas_form (cantidad : string → Z) (catalogo : list (string * Z)) :
  (λ it : string * Z, linea_detalle it.1 it.2 (precio_de it.1))
    <$> filter (λ it : string * Z, 0 < it.2)
          ((λ pp : string * Z, (pp.1, cantidad pp.1)) <$> catalogo)
  = omap (λ pp : string * Z,
            if 0 <? cantidad pp.1
            then Some (linea_detalle pp.1 (cantidad pp.1) (precio_de pp.1))
            else None) catalogo.
Proof.
  induction catalogo as [|[p precio] rest IH]; [done|].
  rewrite fmap_cons, filter_cons. simpl.
  destruct (Z.ltb_spec 0 (cantidad p)).
  - rewrite decide_True by done. rewrite fmap_cons. simpl. by rewrite IH.
  - rewrite decide_False by lia. by rewrite IH.
Qed.

(** Built by the order form, the mapping is walked in catalog order. *)
Lemma detalle_form cantidad :
  detalle_pedido (form_productos_cant cantidad)
  = detalle_catalogo (form_productos_cant cantidad).
Proof.
  unfold detalle_pedido, detalle_catalogo, form_productos_cant at 1.
  rewrite lineas_form. f_equal.
Qed.

(** C8, as the code has it. The detail line of a returning [create_order]
    is the join with " | " of "<product> x<qty> (@<unit_price>)" over
    exactly the items with quantity > 0, in the iteration order of the input
    mapping; when the mapping is the one the order form builds, that order
    is the catalog's. *)
Theorem create_order_detalle fecha cliente_id productos_cant domicilio_bool st pid st' :
  create_order fecha cliente_id productos_cant domicilio_bool st = (inr pid, st') →
  ∃ row,
    ws_pedidos st' = (ws_pedidos st ++ [row])%list ∧
    Productos_detalle row
    = join " | "
        ((λ it : string * Z, linea_detalle it.1 it.2 (precio_de it.1))
           <$> filter (λ it : string * Z, 0 < it.2) productos_cant) ∧
    (∀ cantidad, productos_cant = form_productos_cant cantidad →
       Productos_detalle row = detalle_catalogo productos_cant).
Proof.
  intros Hrun.
  apply create_order_success in Hrun as (i & c & _ & _ & _ & _ & Hped).
  eexists. split; [exact Hped|]. rewrite fila_pedido_fields. simpl.
  split; [done|]. intros cantidad ->. apply detalle_form.
Qed.

Lemma create_order_detalle_witness :
  ∃ row,
    ws_pedidos ejemplo_con_pedido = [row] ∧
    Productos_detalle row = "Arandanos_500g x1 (@20000)".
Proof.
  destruct (create_order_detalle "2024-05-01 10:00:00" 1 [("Arandanos_500g", 1)] true
              ejemplo 1 ejemplo_con_pedido)
    as (row & Hped & Hdet & _); [vm_compute; reflexivity|].
  exists row. split; [exact Hped|]. rewrite Hdet. vm_compute. reflexivity.
Defined.

(** C8 as stated fails: a mapping that lists the 250 g box before the 125 g
    box gets its detail line in that order, not in the catalog's. *)
Lemma create_order_detalle_counterexample :
  ∃ pid st' row,
    create_order "2024-05-01 10:00:00" 1
                 [("Arandanos_250g", 1); ("Arandanos_125g", 2)] false ejemplo
    = (inr pid, st') ∧
    ws_pedidos st' = [row] ∧
    Productos_detalle row = "Arandanos_250g x1 (@10000) | Arandanos_125g x2 (@5000)" ∧
    detalle_catalogo [("Arandanos_250g", 1); ("Arandanos_125g", 2)]
    = "Arandanos_125g x2 (@5000) | Arandanos_250g x1 (@10000)" ∧
    Productos_detalle row
    ≠ detalle_catalogo [("Arandanos_250g", 1); ("Arandanos_125g", 2)].
Proof.
  eexists _, _, _. split; [vm_compute; reflexivity|].
  split; [reflexivity|]. split; [vm_compute; reflexivity|].
  split; [vm_compute; reflexivity|]. vm_compute. discriminate.
Qed.

(** ** Stock *)

Lemma create_order_nonneg fecha cliente_id productos_cant domicilio_bool st :
  stock_nonneg st →
  stock_nonneg (create_order fecha cliente_id productos_cant domicilio_bool st).2.
Proof.
  intros Hst.
  destruct (find_row (λ c, cli_ID_Cliente c =? cliente_id) (ws_clientes st))
    as [[i c]|] eqn:Hf.
  - rewrite (create_order_cliente _ _ _ _ _ _ _ Hf).
    destruct (validar_stock _ productos_cant st) as [[e|[]] st0]; [done|]. simpl.
    match goal with
    | |- context [update_inventory_loop ?inv ?items ?st1] =>
      pose proof (update_inventory_loop_nonneg items inv st1 Hst) as Hnn;
      destruct (update_inventory_loop inv items st1) as [[e|[]] st2]
    end; exact Hnn.
  - apply find_cliente_None in Hf. by rewrite (create_order_no_cliente _ _ _ _ _ Hf).
Qed.

Lemma form_update_inventory_cases prod nueva st :
  (find_row (λ r : InvRow, String.eqb r.1 prod) (ws_inventario st) = None ∧
   form_update_inventory prod nueva st
   = (inl (if decide (ws_inventario st = []) then KeyError "Producto" else IndexError), st))
  ∨
  (∃ idx r,
     find_row (λ r : InvRow, String.eqb r.1 prod) (ws_inventario st) = Some (idx, r) ∧
     form_update_inventory prod nueva st
     = (inr (st_success ("Stock actualizado: " +:+ prod +:+ " = "
                         +:+ pretty (r.2 + nueva))),
        set_inventario (alter (λ row : InvRow, (row.1, r.2 + nueva)) idx) st)).
Proof.
  unfold form_update_inventory. run.
  destruct (ws_inventario st) as [|r0 inv] eqn:Hinv; [by left|].
  destruct (find_row (λ r : InvRow, String.eqb r.1 prod) (r0 :: inv))
    as [[idx r]|] eqn:Hf.
  - right. by exists idx, r.
  - by left.
Qed.

Lemma form_update_inventory_nonneg prod nueva st :
  0 ≤ nueva → stock_nonneg st → stock_nonneg (form_update_inventory prod nueva st).2.
Proof.
  intros Hn Hst.
  destruct (form_update_inventory_cases prod nueva st)
    as [[_ ->]|(idx & r & Hf & ->)]; [done|].
  simpl. unfold stock_nonneg. simpl. apply nonneg_alter; [|done].
  pose proof (stock_of_nonneg prod r.2 st Hst (stock_of_find _ _ _ _ Hf)). lia.
Qed.

Lemma ejecutar_nonneg op st :
  entrada_valida op → stock_nonneg st → stock_nonneg (ejecutar op st).
Proof.
  intros Hop Hst. destruct op as [n t d|fecha cid pc dom|fecha oid medio monto|f c m|prod nueva];
    simpl.
  - unfold form_add_cliente. by destruct (decide (n = "")).
  - by apply create_order_nonneg.
  - unfold mark_order_delivered. run.
    by destruct (find_row _ (ws_pedidos st)) as [[idx row]|].
  - done.
  - by apply form_update_inventory_nonneg.
Qed.

Lemma create_order_first_failure fecha cliente_id pre p q post domicilio_bool st disponible :
  cliente_registrado cliente_id st →
  Forall (item_ok (inventory_map (ws_inventario st))) pre →
  inventory_map (ws_inventario st) !! p = Some disponible →
  0 < q → disponible < q →
  create_order fecha cliente_id (pre ++ (p, q) :: post) domicilio_bool st
  = (inl (raised_as (InsufficientStockError p disponible q)), st).
Proof.
  intros Hreg Hpre Hs Hq Hlt.
  destruct (cliente_registrado_find _ _ Hreg) as (i & c & Hf).
  rewrite (create_order_cliente _ _ _ _ _ _ _ Hf).
  rewrite (validar_stock_first _ _ _ _ _ _ Hpre Hq), Hs.
  by destruct (Z.ltb_spec disponible q); [|lia].
Qed.

(** C3. Stock never becomes negative: every operation on the sheets keeps
    all stocks at or above zero.  After a returning [create_order] the stock
    of each ordered product is its previous stock minus the quantity,
    whenever the quantity is at most the previous stock.  A [create_order]
    asking for more than the previous stock of a product raises (the
    insufficient-stock error, when the customer is registered and the items
    before it pass) and leaves the sheets, hence that stock, as they
    were. *)
Theorem inventory_stock_spec :
  (∀ op st, entrada_valida op → stock_nonneg st → stock_nonneg (ejecutar op st)) ∧
  (∀ fecha cliente_id productos_cant domicilio_bool st pid st' p q previous_stock,
     NoDup productos_cant.*1 →
     create_order fecha cliente_id productos_cant domicilio_bool st = (inr pid, st') →
     (p, q) ∈ productos_cant →
     stock_of p (ws_inventario st) = Some previous_stock →
     q ≤ previous_stock →
     stock_of p (ws_inventario st') = Some (previous_stock - q)) ∧
  (∀ fecha cliente_id productos_cant domicilio_bool st p q previous_stock,
     NoDup (ws_inventario st).*1 → stock_nonneg st →
     (p, q) ∈ productos_cant →
     stock_of p (ws_inventario st) = Some previous_stock →
     previous_stock < q →
     let run := create_order fecha cliente_id productos_cant domicilio_bool st in
     (∃ msg, run = (inl (ValueError msg), st)) ∧
     stock_of p (ws_inventario run.2) = Some previous_stock ∧
     (cliente_registrado cliente_id st →
      ∀ pre post, productos_cant = (pre ++ (p, q) :: post)%list →
        Forall (item_ok (inventory_map (ws_inventario st))) pre →
        run = (inl (raised_as (InsufficientStockError p previous_stock q)), st))).
Proof.
  split; [exact ejecutar_nonneg|]. split.
  - intros fecha cliente_id productos_cant domicilio_bool st pid st' p q s
      Hnd Hrun Hin Hs Hle.
    rewrite (create_order_stock _ _ _ _ _ _ _ Hnd Hrun p).
    rewrite (dict_get_elem _ _ _ Hnd Hin), Hs. simpl. f_equal. lia.
  - intros fecha cliente_id productos_cant domicilio_bool st p q s
      Hnd Hst Hin Hs Hlt run.
    pose proof (stock_of_nonneg _ _ _ Hst Hs) as Hs0.
    assert (inventory_map (ws_inventario st) !! p = Some s) as Hmap
      by (by rewrite inventory_map_lookup).
    assert (validacion_falla cliente_id productos_cant st) as Hfalla.
    { right. exists p, q. split; [done|]. split; [lia|]. by rewrite Hmap. }
    destruct (create_order_falla fecha _ _ domicilio_bool _ Hfalla) as [k Hrun].
    subst run. split; [|split].
    + destruct (raised_as_ValueError k) as [msg Hk]. exists msg. by rewrite Hrun, Hk.
    + by rewrite Hrun.
    + intros Hreg pre post -> Hpre.
      apply create_order_first_failure; (done || lia).
Qed.

Lemma inventory_stock_spec_witness :
  stock_nonneg (ejecutar (OpUpdateInventory "Arandanos_125g" 5) ejemplo) ∧
  stock_of "Arandanos_500g" (ws_inventario ejemplo_con_pedido) = Some (10 - 1) ∧
  create_order "2024-05-01 10:00:00" 1 [("Arandanos_125g", 11)] false ejemplo
  = (inl (raised_as (InsufficientStockError "Arandanos_125g" 10 11)), ejemplo).
Proof.
  destruct inventory_stock_spec as (H1 & H2 & H3).
  assert (stock_nonneg ejemplo) as Hnn
    by (apply (bool_decide_unpack _); vm_compute; exact I).
  split; [|split].
  - apply H1; [simpl; lia|exact Hnn].
  - apply (H2 "2024-05-01 10:00:00" 1 [("Arandanos_500g", 1)] true ejemplo 1
              ejemplo_con_pedido "Arandanos_500g" 1 10).
    + apply (bool_decide_unpack _). vm_compute. exact I.
    + vm_compute. reflexivity.
    + left.
    + vm_compute. reflexivity.
    + lia.
  - destruct (H3 "2024-05-01 10:00:00" 1 [("Arandanos_125g", 11)] false ejemplo
                "Arandanos_125g" 11 10) as (_ & _ & H).
    + apply (bool_decide_unpack _). vm_compute. exact I.
    + exact Hnn.
    + left.
    + vm_compute. reflexivity.
    + lia.
    + apply (H ltac:(vm_compute; left) [] [] eq_refl (Forall_nil_2 _)).
Defined.

(** ** Outstanding balance *)

Lemma mark_order_delivered_success fecha order_id medio_pago monto st a st' :
  mark_order_delivered fecha order_id medio_pago monto st = (inr a, st') →
  ∃ idx row,
    find_row (λ r, ID_Pedido r =? order_id) (ws_pedidos st) = Some (idx, row) ∧
    a = asignar_pago (Subtotal_productos row) (Monto_domicilio row) monto ∧
    ws_pedidos st' = alter (entregar medio_pago monto a) idx (ws_pedidos st) ∧
    ws_flujo st'
    = (ws_flujo st ++ [mkFlujo fecha order_id (Nombre_Cliente row) medio_pago
                               (prod_paid a) (domicilio_paid a) (saldo_total a)])%list.
Proof.
  intros Hrun.
  destruct (find_row (λ r, ID_Pedido r =? order_id) (ws_pedidos st))
    as [[idx row]|] eqn:Hf.
  - rewrite (mark_order_delivered_found _ _ _ _ _ _ _ Hf) in Hrun.
    injection Hrun as <- <-. by exists idx, row.
  - unfold mark_order_delivered in Hrun. run. by rewrite Hf in Hrun.
Qed.

(** ** Quantities at or below zero *)

Lemma validar_stock_filter m items st :
  validar_stock m items st
  = validar_stock m (filter (λ it : string * Z, 0 < it.2) items) st.
Proof.
  cut (validar_stock m items
       = validar_stock m (filter (λ it : string * Z, 0 < it.2) items));
    [by intros ->|].
  induction items as [|[p q] rest IH]; [done|].
  rewrite filter_cons. simpl.
  destruct (Z.leb_spec q 0) as [Hq|Hq].
  - by rewrite decide_False by lia.
  - rewrite decide_True by done. simpl.
    destruct (Z.leb_spec q 0); [lia|]. by rewrite IH.
Qed.

Lemma update_inventory_after_order_stock products_qty st p q current :
  NoDup products_qty.*1 →
  (p, q) ∈ products_qty →
  stock_of p (ws_inventario st) = Some current →
  ∃ st', update_inventory_after_order products_qty st = (inr tt, st') ∧
         stock_of p (ws_inventario st') = Some (Z.max 0 (current - q)).
Proof.
  intros Hnd Hin Hs. unfold update_inventory_after_order. run.
  destruct (update_inventory_loop_ok products_qty (ws_inventario st) st Hnd eq_refl)
    as (st' & Hrun & Hst'); [done| |].
  { right. intros Hnil. by rewrite Hnil in Hs. }
  exists st'. split; [done|].
  by rewrite Hst', (dict_get_elem _ _ _ Hnd Hin), Hs.
Qed.

Lemma subtotal_de_app (l1 l2 : list (string * Z)) :
  subtotal_de (l1 ++ l2) = subtotal_de l1 + subtotal_de l2.
Proof. apply sum_col_app. Qed.

(** C10. Items with quantity <= 0 pass through [create_order] unchecked:
    the checks see only the items with a positive quantity, the subtotal
    adds price times quantity over all items, and the stock update writes
    max(0, current - quantity).  So an order that carries a negative
    quantity for a tracked product, its other items passing the checks,
    returns; that product's stock grows by the absolute quantity, and the
    subtotal and the initial outstanding balance are those of the other
    items minus price times absolute quantity, which can be below zero. *)
Theorem create_order_negative_quantity :
  (∀ inv_map productos_cant st,
     validar_stock inv_map productos_cant st
     = validar_stock inv_map (filter (λ it : string * Z, 0 < it.2) productos_cant) st) ∧
  (∀ productos_cant,
     (foldl acumular (0, []) productos_cant).1
     = sum_col (λ it : string * Z, precio_de it.1 * it.2) productos_cant) ∧
  (∀ products_qty st p q current,
     NoDup products_qty.*1 → (p, q) ∈ products_qty →
     stock_of p (ws_inventario st) = Some current →
     ∃ st', update_inventory_after_order products_qty st = (inr tt, st') ∧
            stock_of p (ws_inventario st') = Some (Z.max 0 (current - q))) ∧
  (∀ fecha cliente_id (pre : list (string * Z)) p q post domicilio_bool st current,
     cliente_registrado cliente_id st →
     NoDup ((pre ++ (p, q) :: post)%list).*1 →
     Forall (item_ok (inventory_map (ws_inventario st))) (pre ++ post)%list →
     q < 0 →
     stock_of p (ws_inventario st) = Some current → 0 ≤ current →
     ∃ pid st' row,
       create_order fecha cliente_id (pre ++ (p, q) :: post)%list domicilio_bool st
       = (inr pid, st') ∧
       stock_of p (ws_inventario st') = Some (current + Z.abs q) ∧
       ws_pedidos st' = (ws_pedidos st ++ [row])%list ∧
       Subtotal_productos row
       = subtotal_de (pre ++ post)%list - precio_de p * Z.abs q ∧
       Saldo_pendiente row = Subtotal_productos row) ∧
  (∃ pid st' row,
     create_order "2024-05-01 10:00:00" 1 [("Arandanos_125g", -3)] false ejemplo
     = (inr pid, st') ∧
     stock_of "Arandanos_125g" (ws_inventario st') = Some 13 ∧
     ws_pedidos st' = [row] ∧
     Subtotal_productos row = -15000 ∧ Saldo_pendiente row = -15000).
Proof.
  split; [exact validar_stock_filter|].
  split; [intros items; by rewrite acumular_foldl|].
  split; [exact update_inventory_after_order_stock|]. split.
  - intros fecha cliente_id pre p q post domicilio_bool st current
      Hreg Hnd Hok Hq Hs Hcur.
    assert (Forall (item_ok (inventory_map (ws_inventario st))) (pre ++ (p, q) :: post))
      as Hall.
    { apply Forall_app in Hok as [Hpre Hpost]. apply Forall_app. split; [done|].
      constructor; [|done]. left. simpl. lia. }
    assert (ws_inventario st ≠ []) as Hne.
    { intros Hnil. by rewrite Hnil in Hs. }
    destruct (create_order_returns fecha _ _ domicilio_bool _ Hreg Hall Hne)
      as [st' Hrun].
    pose proof (create_order_stock _ _ _ _ _ _ _ Hnd Hrun p) as Hstock.
    rewrite (dict_get_elem p q) in Hstock;
      [|done|apply elem_of_app; right; by left].
    rewrite Hs in Hstock. simpl in Hstock.
    apply create_order_success in Hrun as Hsucc.
    destruct Hsucc as (i & c & _ & _ & _ & _ & Hped).
    eexists _, st', _. split; [exact Hrun|].
    split; [rewrite Hstock; f_equal; lia|]. split; [exact Hped|].
    rewrite fila_pedido_fields. simpl. split; [|done].
    rewrite !subtotal_de_app. unfold subtotal_de at 2, sum_col. simpl.
    fold (sum_col (λ it : string * Z, precio_de it.1 * it.2) post).
    fold (subtotal_de post). nia.
  - eexists _, _, _. split; [vm_compute; reflexivity|].
    split; [vm_compute; reflexivity|]. split; [reflexivity|]. split; reflexivity.
Qed.

Lemma create_order_negative_quantity_witness :
  ∃ pid st' row,
    create_order "2024-05-01 10:00:00" 1
                 [("Arandanos_250g", 1); ("Arandanos_125g", -3)] false ejemplo
    = (inr pid, st') ∧
    stock_of "Arandanos_125g" (ws_inventario st') = Some (10 + Z.abs (-3)) ∧
    ws_pedidos st' = (ws_pedidos ejemplo ++ [row])%list ∧
    Subtotal_productos row
    = subtotal_de [("Arandanos_250g", 1)] - precio_de "Arandanos_125g" * Z.abs (-3).
Proof.
  destruct create_order_negative_quantity as (_ & _ & _ & H & _).
  destruct (H "2024-05-01 10:00:00" 1 [("Arandanos_250g", 1)] "Arandanos_125g" (-3) []
              false ejemplo 10)
    as (pid & st' & row & Hrun & Hstock & Hped & Hsub & _).
  - vm_compute. left.
  - apply (bool_decide_unpack _). vm_compute. exact I.
  - constructor; [|constructor]. right. exists 10. split; [vm_compute; reflexivity|].
    simpl. lia.
  - lia.
  - vm_compute. reflexivity.
  - lia.
  - exists pid, st', row. split; [exact Hrun|]. split; [exact Hstock|].
    split; [exact Hped|exact Hsub].
Defined.

(** ** The inventory sheet over the life of the application *)

Lemma inicializar_inventario_ok st :
  NoDup (ws_inventario st).*1 → stock_nonneg st →
  inventario_ok (inicializar_inventario st).2.
Proof.
  intros Hnd Hnn. unfold inicializar_inventario. run.
  destruct (ws_inventario st) as [|r0 inv] eqn:Hinv; simpl.
  - unfold inventario_ok, stock_nonneg. simpl. rewrite Hinv.
    split; [done|]. split.
    + apply (bool_decide_unpack _). vm_compute. exact I.
    + unfold PRODUCTOS, append_row. simpl. repeat constructor; simpl; lia.
  - unfold inventario_ok. rewrite Hinv in *. done.
Qed.

Lemma update_inventory_loop_names items : ∀ inv st,
  inv.*1 = (ws_inventario st).*1 →
  NoDup (ws_inventario st).*1 →
  NoDup (ws_inventario (update_inventory_loop inv items st).2).*1.
Proof.
  induction items as [|[p0 q0] rest IH]; intros inv st Hnames Hnd; simpl; [done|].
  destruct inv as [|r0 inv]; [done|].
  pose proof (find_row_names p0 _ _ Hnames) as Hfn.
  destruct (find_row (λ r : InvRow, String.eqb r.1 p0) (r0 :: inv)) as [[idx r]|] eqn:Hf;
    destruct (find_row (λ r : InvRow, String.eqb r.1 p0) (ws_inventario st))
      as [[idx' r']|] eqn:Hf'; try done; run; simpl; apply IH; simpl.
  - by rewrite names_alter.
  - by rewrite names_alter.
  - done.
  - unfold append_row. rewrite fmap_app. apply NoDup_app. split; [done|].
    split; [|apply NoDup_singleton].
    intros x Hx Hin. apply list_elem_of_singleton in Hin. simpl in Hin. subst x.
    assert (stock_of p0 (ws_inventario st) = None) as Hnone
      by (unfold stock_of; by rewrite Hf').
    by apply stock_of_None in Hnone.
Qed.

Lemma update_inventory_loop_rows items : ∀ inv st,
  ws_inventario st ≠ [] → ws_inventario (update_inventory_loop inv items st).2 ≠ [].
Proof.
  induction items as [|[p0 q0] rest IH]; intros inv st Hne; simpl; [done|].
  destruct inv as [|r0 inv]; [done|].
  destruct (find_row _ (r0 :: inv)) as [[idx r]|]; run; simpl; apply IH; simpl.
  - destruct (ws_inventario st) as [|x l]; [done|]. by destruct idx.
  - unfold append_row. by destruct (ws_inventario st).
Qed.

(** X23. Every operation keeps the inventory sheet as the data model asks:
    if it has rows, one per product name, and no negative stock, then so it
    has after the operation, whether the operation returned or raised. *)
Lemma ejecutar_inventario_ok op st :
  entrada_valida op → inventario_ok st → inventario_ok (ejecutar op st).
Proof.
  intros Hop (Hne & Hnd & Hnn).
  split; [|split; [|by apply ejecutar_nonneg]];
    destruct op as [n t d|fecha cid pc dom|fecha oid medio monto|f c m|prod nueva]; simpl;
    try (unfold form_add_cliente; by destruct (decide (n = "")));
    try (unfold mark_order_delivered; run;
         by destruct (find_row _ (ws_pedidos st)) as [[idx row]|]);
    try done.
  - destruct (find_row (λ c, cli_ID_Cliente c =? cid) (ws_clientes st))
      as [[i c]|] eqn:Hf.
    + rewrite (create_order_cliente _ _ _ _ _ _ _ Hf).
      destruct (validar_stock _ pc st) as [[e|[]] st0]; [done|]. simpl.
      match goal with
      | |- context [update_inventory_loop ?inv ?items ?st1] =>
        pose proof (update_inventory_loop_rows items inv st1 Hne) as Hr;
        destruct (update_inventory_loop inv items st1) as [[e|[]] st2]
      end; exact Hr.
    + apply find_cliente_None in Hf. by rewrite (create_order_no_cliente _ _ _ _ _ Hf).
  - destruct (form_update_inventory_cases prod nueva st)
      as [[_ ->]|(idx & r & _ & ->)]; [done|]. simpl.
    destruct (ws_inventario st) as [|x l]; [done|]. by destruct idx.
  - destruct (find_row (λ c, cli_ID_Cliente c =? cid) (ws_clientes st))
      as [[i c]|] eqn:Hf.
    + rewrite (create_order_cliente _ _ _ _ _ _ _ Hf).
      destruct (validar_stock _ pc st) as [[e|[]] st0]; [done|]. simpl.
      match goal with
      | |- context [update_inventory_loop ?inv ?items ?st1] =>
        pose proof (update_inventory_loop_names items inv st1 eq_refl Hnd) as Hr;
        destruct (update_inventory_loop inv items st1) as [[e|[]] st2]
      end; exact Hr.
    + apply find_cliente_None in Hf. by rewrite (create_order_no_cliente _ _ _ _ _ Hf).
  - destruct (form_update_inventory_cases prod nueva st)
      as [[_ ->]|(idx & r & _ & ->)]; [done|]. simpl.
    by rewrite names_alter.
Qed.

(** Settling an order a second time starts again from its subtotal and fee:
    what the first settlement applied is not carried over. *)
Lemma mark_order_delivered_twice :
  let st1 := (mark_order_delivered "2024-05-02 09:00:00" 1 "Pago parcial" 15000
                ejemplo_con_pedido).2 in
  let st2 := (mark_order_delivered "2024-05-03 09:00:00" 1 "Efectivo" 0 st1).2 in
  Saldo_pendiente <$> ws_pedidos st1 = [8000] ∧
  Saldo_pendiente <$> ws_pedidos st2 = [23000] ∧
  Ingreso_productos_recibido <$> ws_flujo st2 = [15000; 0].
Proof. vm_compute. done. Qed.

(** * Further properties of the code *)

(** ** Row lookup *)

Lemma find_row_first {A} (key : A → bool) rows i r :
  find_row key rows = Some (i, r) →
  ∀ j r', (j < i)%nat → rows !! j = Some r' → key r' = false.
Proof.
  revert i. induction rows as [|x rows IH]; intros i; simpl; [done|].
  destruct (key x) eqn:Hk.
  - intros [= <- <-] j r' Hj. lia.
  - destruct (find_row key rows) as [[i0 r0]|]; [|done].
    intros [= <- <-] [|j] r' Hj; simpl.
    + by intros [= <-].
    + apply (IH i0 eq_refl). lia.
Qed.

Lemma find_row_absent {A} (id_col : A → Z) rows v :
  find_row (λ r, id_col r =? v) rows = None ↔ v ∉ id_col <$> rows.
Proof.
  rewrite find_row_None. induction rows as [|c rows IH].
  - split; [intros _; apply not_elem_of_nil|constructor].
  - rewrite fmap_cons, not_elem_of_cons, Forall_cons, IH.
    destruct (Z.eqb_spec (id_col c) v); split; intros [H1 H2];
      (done || split; congruence || done).
Qed.

(** X1. [find_row_index_by_id] returns the sheet row number (two more than
    the position among the data rows) of the first row with the given id,
    and [None] exactly when no row has that id. *)
Theorem find_row_index_by_id_spec {A} (id_col : A → Z) (rows : list A) (id_value : Z) :
  match find_row_index_by_id id_col rows id_value with
  | Some n =>
    (2 ≤ n)%nat ∧
    (∃ r, rows !! (n - 2)%nat = Some r ∧ id_col r = id_value) ∧
    (∀ j r, (j < n - 2)%nat → rows !! j = Some r → id_col r ≠ id_value)
  | None => id_value ∉ id_col <$> rows
  end.
Proof.
  unfold find_row_index_by_id.
  destruct (find_row (λ r, id_col r =? id_value) rows) as [[i r]|] eqn:Hf.
  - replace (i + 2 - 2)%nat with i by lia. split; [lia|]. split.
    + apply find_row_Some in Hf as [Hi Hk]. exists r. split; [done|]. by apply Z.eqb_eq.
    + intros j r' Hj Hr'. pose proof (find_row_first _ _ _ _ Hf j r' Hj Hr') as Hk.
      simpl in Hk. by apply Z.eqb_neq.
  - by apply find_row_absent.
Qed.

(** ** Identifiers *)

Lemma foldl_max_app (xs : list Z) (x y : Z) :
  foldl Z.max x (xs ++ [y]) = Z.max (foldl Z.max x xs) y.
Proof. by rewrite foldl_app. Qed.

Lemma next_id_snoc (ids : list Z) : next_id (ids ++ [next_id ids]) = next_id ids + 1.
Proof.
  destruct ids as [|x xs]; [done|].
  rewrite <- app_comm_cons. unfold next_id at 1. rewrite foldl_max_app.
  unfold next_id. lia.
Qed.

(** X2. Registering two customers one after the other, whatever their data
    (the same name and phone twice included), appends two rows and gives
    them consecutive ids. *)
Theorem add_cliente_consecutive n t d n' t' d' st :
  ∃ cid st1 st2,
    add_cliente n t d st = (inr cid, st1) ∧
    add_cliente n' t' d' st1 = (inr (cid + 1), st2) ∧
    ws_clientes st2
    = (ws_clientes st ++ [mkCliente cid n t d; mkCliente (cid + 1) n' t' d'])%list.
Proof.
  eexists _, _, _. split; [apply add_cliente_run|].
  rewrite add_cliente_run. simpl. unfold append_row.
  rewrite fmap_app. simpl. rewrite next_id_snoc.
  split; [done|]. simpl. by rewrite <- app_assoc.
Qed.

Lemma create_order_pedidos fecha cliente_id productos_cant domicilio_bool st :
  let st' := (create_order fecha cliente_id productos_cant domicilio_bool st).2 in
  ws_pedidos st' = ws_pedidos st ∨
  ∃ row, ws_pedidos st' = (ws_pedidos st ++ [row])%list ∧
         ID_Pedido row = next_id (ID_Pedido <$> ws_pedidos st).
Proof.
  simpl.
  destruct (find_row (λ c, cli_ID_Cliente c =? cliente_id) (ws_clientes st))
    as [[i c]|] eqn:Hf.
  - rewrite (create_order_cliente _ _ _ _ _ _ _ Hf).
    destruct (validar_stock _ productos_cant st) as [[e|[]] st0]; [by left|]. simpl.
    destruct (update_inventory_loop _ _ _) as [res st2] eqn:Hloop.
    apply update_inventory_loop_frame in Hloop as (_ & Hped & _).
    right. eexists. split.
    + destruct res as [e|[]]; exact Hped.
    + by rewrite fila_pedido_fields.
  - apply find_cliente_None in Hf. rewrite (create_order_no_cliente _ _ _ _ _ Hf).
    by left.
Qed.

Lemma NoDup_snoc_fresh (ids : list Z) : NoDup ids → NoDup (ids ++ [next_id ids]).
Proof.
  intros Hnd. apply NoDup_app. split; [done|]. split; [|apply NoDup_singleton].
  intros x Hx Hin. apply list_elem_of_singleton in Hin. subst x.
  by apply next_id_fresh in Hx.
Qed.

Lemma fmap_alter_same {A B} (g : A → B) (f : A → A) i (l : list A) :
  (∀ x, g (f x) = g x) → g <$> alter f i l = g <$> l.
Proof.
  intros Hg. revert i. induction l as [|x l IH]; intros [|i]; try done.
  - change (g (f x) :: (g <$> l) = g x :: (g <$> l)). by rewrite Hg.
  - change (g x :: (g <$> alter f i l) = g x :: (g <$> l)). by rewrite IH.
Qed.

(** X3. Ids stay unique: if no two customers and no two orders share an
    id, the same holds after any operation, whether it returned or
    raised. *)
Theorem ejecutar_ids_ok op st : ids_ok st → ids_ok (ejecutar op st).
Proof.
  intros [Hc Hp].
  destruct op as [n t d|fecha cid pc dom|fecha oid medio monto|f c m|prod nueva]; simpl.
  - unfold form_add_cliente. destruct (decide (n = "")); [done|].
    split; [|done]. simpl. unfold append_row. rewrite fmap_app. simpl.
    by apply NoDup_snoc_fresh.
  - pose proof (create_order_pedidos fecha cid pc dom st) as Hped. simpl in Hped.
    assert (ws_clientes (create_order fecha cid pc dom st).2 = ws_clientes st) as Hcli.
    { destruct (find_row (λ c, cli_ID_Cliente c =? cid) (ws_clientes st))
        as [[i c]|] eqn:Hf.
      - rewrite (create_order_cliente _ _ _ _ _ _ _ Hf).
        destruct (validar_stock _ pc st) as [[e|[]] st0]; [done|]. simpl.
        destruct (update_inventory_loop _ _ _) as [res st2] eqn:Hloop.
        apply update_inventory_loop_frame in Hloop as (Hcl & _).
        by destruct res as [e|[]].
      - apply find_cliente_None in Hf. by rewrite (create_order_no_cliente _ _ _ _ _ Hf). }
    split; [unfold ids_ok; by rewrite Hcli|].
    destruct Hped as [->|(row & -> & Hid)]; [done|].
    rewrite fmap_app. simpl. rewrite Hid. by apply NoDup_snoc_fresh.
  - unfold mark_order_delivered. run.
    destruct (find_row _ (ws_pedidos st)) as [[idx row]|]; [|done]. simpl.
    split; [done|]. simpl. by rewrite fmap_alter_same.
  - done.
  - by destruct (form_update_inventory_cases prod nueva st)
      as [[_ ->]|(idx & r & _ & ->)].
Qed.

Lemma ejecutar_ids_ok_witness :
  ids_ok (ejecutar (OpCreateOrder "2024-05-01 10:00:00" 1 [("Arandanos_500g", 1)] true)
                   ejemplo).
Proof.
  apply ejecutar_ids_ok. split; apply (bool_decide_unpack _); vm_compute; exact I.
Defined.

(** ** The inventory map and the stock update *)

(** X4. [get_inventory_map] gives each product the stock of its last row
    (a later row of the same name overrides an earlier one), a product
    without a row is not in the map, and with one row per product the map
    holds exactly the stock the update loop reads. *)
Theorem inventory_map_last_row (rows : list InvRow) (p : string) :
  inventory_map rows !! p = stock_of p (reverse rows) ∧
  (p ∉ rows.*1 → inventory_map rows !! p = None) ∧
  (NoDup rows.*1 → inventory_map rows !! p = stock_of p rows).
Proof.
  assert (inventory_map rows !! p = stock_of p (reverse rows)) as Hlast.
  { unfold inventory_map.
    induction rows as [|[k v] rows IH] using rev_ind; [done|].
    rewrite foldl_app, reverse_app. simpl. rewrite stock_of_cons, lookup_insert.
    by case_decide. }
  split; [done|]. split; [|apply inventory_map_lookup].
  intros Hp. rewrite Hlast. apply stock_of_None.
  by rewrite fmap_reverse, elem_of_reverse.
Qed.

Lemma inventory_map_last_row_witness :
  inventory_map [("Arandanos_125g", 4); ("Arandanos_250g", 7)] !! "Arandanos_250g"
  = stock_of "Arandanos_250g" [("Arandanos_125g", 4); ("Arandanos_250g", 7)].
Proof.
  destruct (inventory_map_last_row [("Arandanos_125g", 4); ("Arandanos_250g", 7)]
              "Arandanos_250g") as (_ & _ & H).
  apply H. apply (bool_decide_unpack _). vm_compute. exact I.
Defined.

Lemma filter_ext_elem {A} (P Q : A → Prop) `{!∀ x, Decision (P x)} `{!∀ x, Decision (Q x)}
    (l : list A) :
  (∀ x, x ∈ l → P x ↔ Q x) → filter P l = filter Q l.
Proof.
  induction l as [|x l IH]; intros Hext; [done|].
  rewrite !filter_cons.
  assert (filter P l = filter Q l) as ->
    by (apply IH; intros y Hy; apply Hext; by right).
  destruct (decide (P x)) as [HP|HP], (decide (Q x)) as [HQ|HQ]; try done;
    exfalso; pose proof (Hext x ltac:(by left)); tauto.
Qed.

Lemma update_inventory_loop_cons inv p q rest st :
  update_inventory_loop inv ((p, q) :: rest) st
  = match inv with
    | [] => (inl (KeyError "Producto"), st)
    | _ :: _ =>
      match find_row (λ r : InvRow, String.eqb r.1 p) inv with
      | None =>
        update_inventory_loop (append_row (p, Z.max 0 (- q)) (ws_inventario st)) rest
          (set_inventario (append_row (p, Z.max 0 (- q))) st)
      | Some (idx, r) =>
        update_inventory_loop inv rest
          (set_inventario (alter (λ row : InvRow, (row.1, Z.max 0 (r.2 - q))) idx) st)
      end
    end.
Proof.
  destruct inv as [|r0 inv]; [done|].
  cbn [update_inventory_loop].
  by destruct (find_row (λ r : InvRow, String.eqb r.1 p) (r0 :: inv)) as [[idx r]|].
Qed.

(** Names of the rows after the loop: the rows that were there, in place,
    then one row per product of the mapping that had none. *)
Lemma update_inventory_loop_new_rows items : ∀ inv st,
  NoDup items.*1 →
  inv.*1 = (ws_inventario st).*1 →
  (ws_inventario (update_inventory_loop inv items st).2).*1
  = (if decide (inv = []) then (ws_inventario st).*1
     else (ws_inventario st).*1 ++ filter (λ p, p ∉ (ws_inventario st).*1) items.*1)%list.
Proof.
  induction items as [|[p0 q0] rest IH]; intros inv st Hnd Hnames.
  { simpl. case_decide; [done|]. by rewrite filter_nil, app_nil_r. }
  rewrite fmap_cons in Hnd. apply NoDup_cons in Hnd as [Hp0 Hnd]. simpl in Hp0.
  rewrite update_inventory_loop_cons.
  destruct inv as [|r0 inv]; [done|]. rewrite decide_False by done.
  pose proof (find_row_names p0 _ _ Hnames) as Hfn.
  rewrite fmap_cons, filter_cons. cbn [fst].
  destruct (find_row (λ r : InvRow, String.eqb r.1 p0) (r0 :: inv)) as [[idx r]|] eqn:Hf;
    destruct (find_row (λ r : InvRow, String.eqb r.1 p0) (ws_inventario st))
      as [[idx' r']|] eqn:Hf'; try done.
  - rewrite IH; [|done|cbn [ws_inventario set_inventario]; by rewrite names_alter].
    rewrite decide_False by done. cbn [ws_inventario set_inventario].
    rewrite names_alter.
    rewrite decide_False; [done|].
    intros Hnot. apply stock_of_None in Hnot.
    by rewrite (stock_of_find _ _ _ _ Hf') in Hnot.
  - assert (p0 ∉ (ws_inventario st).*1) as Hnot.
    { apply stock_of_None. unfold stock_of. by rewrite Hf'. }
    rewrite decide_True by done.
    rewrite IH; [|done|done]. cbn [ws_inventario set_inventario]. unfold append_row.
    rewrite decide_False by (by destruct (ws_inventario st)).
    rewrite fmap_app. cbn [fmap list_fmap fst]. rewrite <- app_assoc.
    cbn [app]. do 2 f_equal.
    apply filter_ext_elem. intros x Hx. rewrite not_elem_of_app.
    split; [by intros [? _]|]. intros Hx'. split; [done|].
    intros Hin. apply list_elem_of_singleton in Hin. by subst x.
Qed.

(** X5. On an inventory with rows, [update_inventory_after_order] returns
    and writes to the inventory sheet only.  A product of the mapping gets
    max(0, current - quantity), where current is 0 for a product that had no
    row; every other product keeps its stock.  The rows that were there keep
    their place and name, and one row is appended, in the order of the
    mapping, for each of its products that had none. *)
Theorem update_inventory_after_order_spec products_qty st :
  NoDup products_qty.*1 →
  ws_inventario st ≠ [] →
  ∃ st',
    update_inventory_after_order products_qty st = (inr tt, st') ∧
    ws_clientes st' = ws_clientes st ∧ ws_pedidos st' = ws_pedidos st ∧
    ws_flujo st' = ws_flujo st ∧ ws_gastos st' = ws_gastos st ∧
    (∀ p, stock_of p (ws_inventario st')
          = match dict_get p products_qty with
            | Some q => Some (Z.max 0 (default 0 (stock_of p (ws_inventario st)) - q))
            | None => stock_of p (ws_inventario st)
            end) ∧
    (ws_inventario st').*1
    = ((ws_inventario st).*1
       ++ filter (λ p, p ∉ (ws_inventario st).*1) products_qty.*1)%list.
Proof.
  intros Hnd Hne. unfold update_inventory_after_order. run.
  destruct (update_inventory_loop_ok products_qty (ws_inventario st) st Hnd eq_refl)
    as (st' & Hrun & Hst'); [done|by right|].
  exists st'. split; [done|].
  pose proof (update_inventory_loop_frame _ _ _ _ _ Hrun) as (H1 & H2 & H3 & H4 & _).
  do 4 (split; [done|]). split; [done|].
  pose proof (update_inventory_loop_new_rows products_qty (ws_inventario st) st Hnd eq_refl)
    as Hrows.
  rewrite Hrun in Hrows. simpl in Hrows. by rewrite decide_False in Hrows.
Qed.

Lemma update_inventory_after_order_spec_witness :
  ∃ st',
    update_inventory_after_order [("Arandanos_125g", 4); ("Fresas", -6)] ejemplo
    = (inr tt, st') ∧
    stock_of "Arandanos_125g" (ws_inventario st') = Some 6 ∧
    stock_of "Fresas" (ws_inventario st') = Some 6 ∧
    stock_of "Arandanos_250g" (ws_inventario st') = Some 10.
Proof.
  destruct (update_inventory_after_order_spec [("Arandanos_125g", 4); ("Fresas", -6)]
              ejemplo) as (st' & Hrun & _ & _ & _ & _ & Hst & _).
  - apply (bool_decide_unpack _). vm_compute. exact I.
  - discriminate.
  - exists st'. split; [exact Hrun|]. rewrite !Hst. vm_compute. done.
Defined.

(** ** More on [create_order] *)

(** X6. The floor at zero of the stock update never acts on an accepted
    order: with one inventory row per product and no negative stock, a
    returning [create_order] leaves every ordered product that has a row
    with exactly its previous stock minus the quantity, and no stock
    negative. *)
Theorem create_order_exact_deduction fecha cliente_id productos_cant domicilio_bool
    st pid st' :
  NoDup productos_cant.*1 →
  NoDup (ws_inventario st).*1 →
  stock_nonneg st →
  create_order fecha cliente_id productos_cant domicilio_bool st = (inr pid, st') →
  stock_nonneg st' ∧
  ∀ p q previous_stock,
    (p, q) ∈ productos_cant →
    stock_of p (ws_inventario st) = Some previous_stock →
    q ≤ previous_stock ∧
    stock_of p (ws_inventario st') = Some (previous_stock - q).
Proof.
  intros Hnd Hinv Hnn Hrun. split.
  { pose proof (create_order_nonneg fecha cliente_id productos_cant domicilio_bool st Hnn)
      as H. by rewrite Hrun in H. }
  intros p q s Hin Hs.
  pose proof (create_order_success _ _ _ _ _ _ _ Hrun) as (i & c & _ & Hall & _).
  assert (q ≤ s) as Hle.
  { rewrite Forall_forall in Hall. destruct (Hall _ Hin) as [Hq|(d & Hd & Hq)]; simpl in *.
    - pose proof (stock_of_nonneg _ _ _ Hnn Hs). lia.
    - rewrite inventory_map_lookup, Hs in Hd by done. injection Hd as ->. done. }
  split; [done|].
  rewrite (create_order_stock _ _ _ _ _ _ _ Hnd Hrun p).
  rewrite (dict_get_elem _ _ _ Hnd Hin), Hs. simpl. f_equal. lia.
Qed.

Lemma create_order_exact_deduction_witness :
  stock_of "Arandanos_500g" (ws_inventario ejemplo_con_pedido) = Some (10 - 1).
Proof.
  destruct (create_order_exact_deduction "2024-05-01 10:00:00" 1 [("Arandanos_500g", 1)]
              true ejemplo 1 ejemplo_con_pedido) as [_ H].
  - apply (bool_decide_unpack _). vm_compute. exact I.
  - apply (bool_decide_unpack _). vm_compute. exact I.
  - apply (bool_decide_unpack _). vm_compute. exact I.
  - vm_compute. reflexivity.
  - destruct (H "Arandanos_500g" 1 10) as [_ H2]; [left|vm_compute; reflexivity|].
    exact H2.
Defined.

Lemma find_cliente_registrado cliente_id st i c :
  find_row (λ c, cli_ID_Cliente c =? cliente_id) (ws_clientes st) = Some (i, c) →
  cliente_registrado cliente_id st.
Proof.
  intros Hf. unfold cliente_registrado. apply find_row_Some in Hf as [Hi Hc].
  apply Z.eqb_eq in Hc. rewrite <- Hc.
  apply list_elem_of_fmap_2. by eapply list_elem_of_lookup_2.
Qed.

(** X7. The one way [create_order] fails after writing: on an inventory
    sheet without rows, for a registered customer and a non-empty mapping
    whose quantities are all <= 0, the checks pass, the Order row is
    appended and then the stock update raises [KeyError]; the order stays
    recorded.  If some quantity is positive, the same sheet gives the
    product-missing error before any write. *)
Theorem create_order_empty_inventory fecha cliente_id productos_cant domicilio_bool st :
  cliente_registrado cliente_id st →
  ws_inventario st = [] →
  productos_cant ≠ [] →
  (Forall (λ it : string * Z, it.2 ≤ 0) productos_cant →
   ∃ row,
     create_order fecha cliente_id productos_cant domicilio_bool st
     = (inl (KeyError "Producto"), set_pedidos (λ rows, rows ++ [row])%list st) ∧
     ID_Pedido row = next_id (ID_Pedido <$> ws_pedidos st)) ∧
  (¬ Forall (λ it : string * Z, it.2 ≤ 0) productos_cant →
   ∃ p, create_order fecha cliente_id productos_cant domicilio_bool st
        = (inl (raised_as (ValidationError p)), st)).
Proof.
  intros Hreg Hinv Hne.
  destruct (cliente_registrado_find _ _ Hreg) as (i & c & Hf).
  rewrite (create_order_cliente _ _ _ _ _ _ _ Hf), Hinv. split.
  - intros Hq. rewrite validar_stock_ok.
    + exists (fila_pedido fecha cliente_id (cli_Nombre c) productos_cant domicilio_bool
                (next_id (ID_Pedido <$> ws_pedidos st))).
      split; [|by rewrite fila_pedido_fields].
      destruct productos_cant as [|[p q] rest]; [done|].
      cbv zeta. by rewrite update_inventory_loop_cons.
    + eapply Forall_impl; [exact Hq|]. intros it Hit. by left.
  - intros Hq.
    destruct (validar_stock_cases (inventory_map []) productos_cant st)
      as [[Hall _]|(pre & p & q & post & k & _ & _ & _ & Hv & Hk)].
    + exfalso. apply Hq. eapply Forall_impl; [exact Hall|].
      intros it [Hit|(d & Hd & _)]; [done|]. done.
    + destruct Hk as [[_ ->]|(d & Hd & _)]; [|done]. exists p. by rewrite Hv.
Qed.

Lemma create_order_empty_inventory_witness :
  ∃ row,
    create_order "2024-05-01 10:00:00" 1 [("Arandanos_125g", 0)] false
      (set_inventario (λ _, []) ejemplo)
    = (inl (KeyError "Producto"),
       set_pedidos (λ rows, rows ++ [row])%list (set_inventario (λ _, []) ejemplo)).
Proof.
  destruct (create_order_empty_inventory "2024-05-01 10:00:00" 1 [("Arandanos_125g", 0)]
              false (set_inventario (λ _, []) ejemplo)) as [H _].
  - vm_compute. left.
  - reflexivity.
  - discriminate.
  - destruct H as (row & Hrun & _).
    + constructor; [simpl; lia|constructor].
    + exists row. exact Hrun.
Defined.

(** X9. A returning [create_order] writes nothing to the customer, cash
    flow and expense sheets (so the summary is the same), keeps the order
    rows that were there, and appends one row whose id is above every
    existing order id and which carries the date, the customer id and the
    name of the first registry row with that id. *)
Theorem create_order_frame fecha cliente_id productos_cant domicilio_bool st pid st' :
  create_order fecha cliente_id productos_cant domicilio_bool st = (inr pid, st') →
  ws_clientes st' = ws_clientes st ∧
  ws_flujo st' = ws_flujo st ∧
  ws_gastos st' = ws_gastos st ∧
  resumen_de st' = resumen_de st ∧
  ∃ i c row,
    find_row (λ c, cli_ID_Cliente c =? cliente_id) (ws_clientes st) = Some (i, c) ∧
    ws_pedidos st' = (ws_pedidos st ++ [row])%list ∧
    ID_Pedido row = pid ∧
    Forall (λ r, ID_Pedido r < pid) (ws_pedidos st) ∧
    Fecha row = fecha ∧ ID_Cliente row = cliente_id ∧ Nombre_Cliente row = cli_Nombre c.
Proof.
  intros Hrun.
  apply create_order_success in Hrun as (i & c & Hf & _ & -> & Hloop & Hped).
  apply update_inventory_loop_frame in Hloop as (Hcl & _ & Hfl & Hga & _).
  simpl in Hcl, Hfl, Hga.
  split; [done|]. split; [done|]. split; [done|].
  split; [unfold resumen_de; by rewrite Hfl, Hga|].
  exists i, c. eexists. split; [done|]. split; [exact Hped|].
  rewrite fila_pedido_fields. simpl. split; [done|]. split; [|done].
  pose proof (next_id_gt (ID_Pedido <$> ws_pedidos st)) as Hgt.
  by rewrite Forall_fmap in Hgt.
Qed.

Lemma create_order_frame_witness :
  ws_clientes ejemplo_con_pedido = ws_clientes ejemplo ∧
  resumen_de ejemplo_con_pedido = resumen_de ejemplo.
Proof.
  destruct (create_order_frame "2024-05-01 10:00:00" 1 [("Arandanos_500g", 1)] true
              ejemplo 1 ejemplo_con_pedido) as (H1 & _ & _ & H2 & _);
    [vm_compute; reflexivity|].
  split; [exact H1|exact H2].
Defined.

Lemma filter_nonpositive (items : list (string * Z)) :
  Forall (λ it : string * Z, it.2 ≤ 0) items →
  filter (λ it : string * Z, 0 < it.2) items = [].
Proof.
  induction 1 as [|it rest Hit _ IH]; [done|].
  rewrite filter_cons, decide_False by lia. exact IH.
Qed.

Lemma subtotal_de_zero (items : list (string * Z)) :
  Forall (λ it : string * Z, it.2 = 0) items → subtotal_de items = 0.
Proof.
  unfold subtotal_de, sum_col. induction 1 as [|it rest Hit _ IH]; [done|].
  simpl. rewrite IH, Hit. lia.
Qed.

(** X10. An order in which nothing is ordered is accepted: for a registered
    customer and quantities that are all 0, [create_order] returns and
    records an order with an empty detail line, subtotal and outstanding
    balance 0 and a total equal to the delivery fee; no product that has an
    inventory row changes its stock. *)
Theorem create_order_nothing_ordered fecha cliente_id productos_cant domicilio_bool st :
  cliente_registrado cliente_id st →
  NoDup productos_cant.*1 →
  ws_inventario st ≠ [] →
  stock_nonneg st →
  Forall (λ it : string * Z, it.2 = 0) productos_cant →
  ∃ pid st' row,
    create_order fecha cliente_id productos_cant domicilio_bool st = (inr pid, st') ∧
    ws_pedidos st' = (ws_pedidos st ++ [row])%list ∧
    Productos_detalle row = "" ∧
    Subtotal_productos row = 0 ∧
    Saldo_pendiente row = 0 ∧
    Total_pedido row = (if domicilio_bool then DOMICILIO_COST else 0) ∧
    ∀ p s, stock_of p (ws_inventario st) = Some s →
           stock_of p (ws_inventario st') = Some s.
Proof.
  intros Hreg Hnd Hne Hnn Hzero.
  assert (Forall (item_ok (inventory_map (ws_inventario st))) productos_cant) as Hall.
  { eapply Forall_impl; [exact Hzero|]. intros it Hit. left. simpl in Hit. lia. }
  destruct (create_order_returns fecha _ _ domicilio_bool _ Hreg Hall Hne) as [st' Hrun].
  pose proof (create_order_success _ _ _ _ _ _ _ Hrun) as (i & c & _ & _ & _ & _ & Hped).
  eexists _, st', _. split; [exact Hrun|]. split; [exact Hped|].
  rewrite fila_pedido_fields. simpl.
  rewrite (subtotal_de_zero _ Hzero). unfold detalle_pedido.
  rewrite filter_nonpositive
    by (eapply Forall_impl; [exact Hzero|]; intros it Hit; simpl in *; lia).
  split; [done|]. split; [done|]. split; [done|]. split; [by destruct domicilio_bool|].
  intros p s Hs. rewrite (create_order_stock _ _ _ _ _ _ _ Hnd Hrun p), Hs.
  destruct (dict_get p productos_cant) as [q|] eqn:Hq; [|done].
  apply dict_get_Some in Hq. rewrite Forall_forall in Hzero.
  specialize (Hzero _ Hq). simpl in Hzero. subst q.
  pose proof (stock_of_nonneg _ _ _ Hnn Hs). simpl. f_equal. lia.
Qed.

Lemma create_order_nothing_ordered_witness :
  ∃ pid st' row,
    create_order "2024-05-01 10:00:00" 1 (form_productos_cant (λ _, 0)) false ejemplo
    = (inr pid, st') ∧
    ws_pedidos st' = (ws_pedidos ejemplo ++ [row])%list ∧
    Productos_detalle row = "" ∧ Total_pedido row = 0.
Proof.
  destruct (create_order_nothing_ordered "2024-05-01 10:00:00" 1
              (form_productos_cant (λ _, 0)) false ejemplo)
    as (pid & st' & row & Hrun & Hped & Hdet & _ & _ & Htot & _).
  - vm_compute. left.
  - apply (bool_decide_unpack _). vm_compute. exact I.
  - discriminate.
  - apply (bool_decide_unpack _). vm_compute. exact I.
  - apply (bool_decide_unpack _). vm_compute. exact I.
  - exists pid, st', row. split; [exact Hrun|]. split; [exact Hped|].
    split; [exact Hdet|exact Htot].
Defined.

(** ** More on [mark_order_delivered] *)

(** X11. For an order whose delivery fee is not negative, the amount that
    [mark_order_delivered] applies (products plus delivery) is
    min(amount, subtotal + fee) and the balance it returns is
    max(0, subtotal + fee - amount); applied amounts and balance add up to
    subtotal + fee; nothing goes to the delivery fee unless the products are
    paid in full, and an amount up to the subtotal goes to the products
    alone. *)
Theorem settle_closed_form fecha order_id medio_pago A st idx row :
  find_row (λ r, ID_Pedido r =? order_id) (ws_pedidos st) = Some (idx, row) →
  0 ≤ Monto_domicilio row →
  let S := Subtotal_productos row in
  let F := Monto_domicilio row in
  ∃ a st',
    mark_order_delivered fecha order_id medio_pago A st = (inr a, st') ∧
    prod_paid a + domicilio_paid a = Z.min A (S + F) ∧
    saldo_total a = Z.max 0 (S + F - A) ∧
    prod_paid a + domicilio_paid a + saldo_total a = S + F ∧
    (domicilio_paid a ≠ 0 → prod_paid a = S) ∧
    (A ≤ S → prod_paid a = A ∧ domicilio_paid a = 0).
Proof.
  intros Hf HF S F.
  eexists _, _. split; [by apply mark_order_delivered_found|].
  fold S F. unfold asignar_pago. simpl. lia.
Qed.

Lemma settle_closed_form_witness :
  ∃ a st',
    mark_order_delivered "2024-05-02 09:00:00" 1 "Pago parcial" 15000 ejemplo_con_pedido
    = (inr a, st') ∧
    prod_paid a + domicilio_paid a = Z.min 15000 (20000 + 3000) ∧
    saldo_total a = Z.max 0 (20000 + 3000 - 15000).
Proof.
  edestruct (settle_closed_form "2024-05-02 09:00:00" 1 "Pago parcial" 15000
               ejemplo_con_pedido)
    as (a & st' & Hrun & H1 & H2 & _); [vm_compute; reflexivity|simpl; lia|].
  exists a, st'. split; [exact Hrun|]. split; [exact H1|exact H2].
Defined.

(** X12. [mark_order_delivered] raises the error "Pedido no encontrado"
    exactly when no order row has the given id, and it raises it before any
    write: the sheets are then as they were. *)
Theorem mark_order_delivered_not_found fecha order_id medio_pago monto st :
  (order_id ∉ ID_Pedido <$> ws_pedidos st →
   mark_order_delivered fecha order_id medio_pago monto st
   = (inl (ValueError "Pedido no encontrado"), st)) ∧
  (∀ st',
     mark_order_delivered fecha order_id medio_pago monto st
     = (inl (ValueError "Pedido no encontrado"), st') →
     (order_id ∉ ID_Pedido <$> ws_pedidos st) ∧
     ws_clientes st' = ws_clientes st ∧ ws_pedidos st' = ws_pedidos st ∧
     ws_inventario st' = ws_inventario st ∧ ws_flujo st' = ws_flujo st ∧
     ws_gastos st' = ws_gastos st).
Proof.
  split.
  - intros Hid. apply find_row_absent in Hid.
    unfold mark_order_delivered. run. by rewrite Hid.
  - intros st' Hrun.
    destruct (find_row (λ r, ID_Pedido r =? order_id) (ws_pedidos st))
      as [[idx row]|] eqn:Hf.
    + by rewrite (mark_order_delivered_found _ _ _ _ _ _ _ Hf) in Hrun.
    + unfold mark_order_delivered in Hrun. run. rewrite Hf in Hrun.
      injection Hrun as <-. split; [|done]. by apply find_row_absent.
Qed.

Lemma mark_order_delivered_not_found_witness :
  mark_order_delivered "2024-05-02 09:00:00" 9 "Efectivo" 1000 ejemplo_con_pedido
  = (inl (ValueError "Pedido no encontrado"), ejemplo_con_pedido).
Proof.
  destruct (mark_order_delivered_not_found "2024-05-02 09:00:00" 9 "Efectivo" 1000
              ejemplo_con_pedido) as [H _].
  apply H. vm_compute. intros Hin. inversion Hin as [|? ? ? Hin']. inversion Hin'.
Defined.

(** X13. A returning [mark_order_delivered], called with an amount of at
    most 2^53 in absolute value (a whole number that [float] keeps as it
    is), touches one order row, the first with that id: it keeps the row's
    id, date, customer, detail, subtotal, fee and total, marks it Entregado
    and stores the payment method and the whole amount paid (also when more
    than was owed).  Every other order row, and the customer, inventory and
    expense sheets, are as before; one cash-flow entry with the order id,
    the customer name and the applied amounts is appended. *)
Theorem mark_order_delivered_frame fecha order_id medio_pago monto st a st' :
  Z.abs monto ≤ 2 ^ 53 →
  mark_order_delivered fecha order_id medio_pago monto st = (inr a, st') →
  ∃ idx row row',
    find_row (λ r, ID_Pedido r =? order_id) (ws_pedidos st) = Some (idx, row) ∧
    ws_clientes st' = ws_clientes st ∧
    ws_inventario st' = ws_inventario st ∧
    ws_gastos st' = ws_gastos st ∧
    length (ws_pedidos st') = length (ws_pedidos st) ∧
    (∀ j, j ≠ idx → ws_pedidos st' !! j = ws_pedidos st !! j) ∧
    ws_pedidos st' !! idx = Some row' ∧
    (ID_Pedido row', Fecha row', ID_Cliente row', Nombre_Cliente row',
     Productos_detalle row', Subtotal_productos row', Monto_domicilio row',
     Total_pedido row')
    = (ID_Pedido row, Fecha row, ID_Cliente row, Nombre_Cliente row,
       Productos_detalle row, Subtotal_productos row, Monto_domicilio row,
       Total_pedido row) ∧
    Estado row' = "Entregado" ∧ Medio_pago row' = medio_pago ∧
    Monto_pagado row' = monto ∧ Saldo_pendiente row' = saldo_total a ∧
    ws_flujo st'
    = (ws_flujo st ++ [mkFlujo fecha order_id (Nombre_Cliente row) medio_pago
                               (prod_paid a) (domicilio_paid a) (saldo_total a)])%list.
Proof.
  intros _ Hrun.
  destruct (find_row (λ r, ID_Pedido r =? order_id) (ws_pedidos st))
    as [[idx row]|] eqn:Hf.
  - rewrite (mark_order_delivered_found _ _ _ _ _ _ _ Hf) in Hrun.
    injection Hrun as <- <-.
    pose proof (find_row_Some _ _ _ _ Hf) as [Hi _].
    eexists idx, row, _.
    split; [done|]. simpl. split; [done|]. split; [done|]. split; [done|].
    split; [by rewrite length_alter|].
    split; [intros j Hj; by rewrite list_lookup_alter_ne|].
    split; [by rewrite list_lookup_alter_eq, Hi|].
    split; [done|]. split; [done|]. split; [done|]. split; [done|]. split; [done|].
    done.
  - unfold mark_order_delivered in Hrun. run. by rewrite Hf in Hrun.
Qed.

Lemma mark_order_delivered_frame_witness :
  ws_inventario (mark_order_delivered "2024-05-02 09:00:00" 1 "Efectivo" 30000
                   ejemplo_con_pedido).2
  = ws_inventario ejemplo_con_pedido ∧
  Monto_pagado <$> ws_pedidos (mark_order_delivered "2024-05-02 09:00:00" 1 "Efectivo"
                                 30000 ejemplo_con_pedido).2
  = [30000].
Proof.
  destruct (mark_order_delivered_frame "2024-05-02 09:00:00" 1 "Efectivo" 30000
              ejemplo_con_pedido (mkAsignacion 20000 3000 0)
              (mark_order_delivered "2024-05-02 09:00:00" 1 "Efectivo" 30000
                 ejemplo_con_pedido).2)
    as (idx & row & row' & _ & _ & H & _);
    [vm_compute; discriminate|vm_compute; reflexivity|].
  split; [exact H|]. vm_compute. reflexivity.
Defined.

Lemma find_row_alter {A} (key : A → bool) (f : A → A) i (l : list A) :
  (∀ r, key (f r) = key r) →
  find_row key (alter f i l)
  = match find_row key l with
    | Some (j, r) => Some (j, if decide (j = i) then f r else r)
    | None => None
    end.
Proof.
  intros Hkey. revert i. induction l as [|x l IH]; intros i; [done|].
  destruct i as [|i].
  - change (alter f 0%nat (x :: l)) with (f x :: l). simpl. rewrite Hkey.
    destruct (key x); [done|].
    by destruct (find_row key l) as [[j r]|].
  - change (alter f (S i) (x :: l)) with (x :: alter f i l). simpl.
    destruct (key x); [done|]. rewrite IH.
    destruct (find_row key l) as [[j r]|]; [|done].
    destruct (decide (j = i)) as [->|Hne].
    + by rewrite decide_True.
    + by rewrite decide_False by lia.
Qed.

Lemma alter_alter_same {A} (f g : A → A) i (l : list A) :
  (∀ x, f (g x) = f x) → alter f i (alter g i l) = alter f i l.
Proof.
  intros Hfg. revert i. induction l as [|x l IH]; intros [|i]; try done.
  - change (f (g x) :: l = f x :: l). by rewrite Hfg.
  - change (x :: alter f i (alter g i l) = x :: alter f i l). by rewrite IH.
Qed.

(** X14. Settling an order again starts from its subtotal and fee: the
    second call returns the allocation of its own amount alone, the order
    sheet ends as if only the second settlement had been made, and the cash
    flow sheet has an entry for each of the two. *)
Theorem mark_order_delivered_again fecha1 medio1 A1 fecha2 medio2 A2 order_id st idx row :
  find_row (λ r, ID_Pedido r =? order_id) (ws_pedidos st) = Some (idx, row) →
  let S := Subtotal_productos row in
  let F := Monto_domicilio row in
  let st1 := (mark_order_delivered fecha1 order_id medio1 A1 st).2 in
  ∃ st2,
    mark_order_delivered fecha2 order_id medio2 A2 st1
    = (inr (asignar_pago S F A2), st2) ∧
    ws_pedidos st2 = ws_pedidos (mark_order_delivered fecha2 order_id medio2 A2 st).2 ∧
    ws_flujo st2
    = (ws_flujo st
       ++ [mkFlujo fecha1 order_id (Nombre_Cliente row) medio1
                   (prod_paid (asignar_pago S F A1)) (domicilio_paid (asignar_pago S F A1))
                   (saldo_total (asignar_pago S F A1));
           mkFlujo fecha2 order_id (Nombre_Cliente row) medio2
                   (prod_paid (asignar_pago S F A2)) (domicilio_paid (asignar_pago S F A2))
                   (saldo_total (asignar_pago S F A2))])%list.
Proof.
  intros Hf S F st1. subst st1.
  rewrite (mark_order_delivered_found fecha1 _ medio1 A1 _ _ _ Hf). cbn [snd].
  rewrite (mark_order_delivered_found fecha2 _ medio2 A2 _ _ _ Hf). cbn [snd].
  fold S F.
  assert (find_row (λ r, ID_Pedido r =? order_id)
            (alter (entregar medio1 A1 (asignar_pago S F A1)) idx (ws_pedidos st))
          = Some (idx, entregar medio1 A1 (asignar_pago S F A1) row)) as Hf1.
  { rewrite find_row_alter by done. rewrite Hf. by rewrite decide_True. }
  eexists. split.
  - erewrite mark_order_delivered_found; [|exact Hf1]. reflexivity.
  - simpl. split.
    + by apply alter_alter_same.
    + unfold append_row. by rewrite <- app_assoc.
Qed.

Lemma mark_order_delivered_again_witness :
  ∃ st2,
    mark_order_delivered "2024-05-03 09:00:00" 1 "Efectivo" 0
      (mark_order_delivered "2024-05-02 09:00:00" 1 "Pago parcial" 15000
         ejemplo_con_pedido).2
    = (inr (asignar_pago 20000 3000 0), st2) ∧
    Saldo_pendiente <$> ws_pedidos st2 = [23000].
Proof.
  edestruct (mark_order_delivered_again "2024-05-02 09:00:00" "Pago parcial" 15000
               "2024-05-03 09:00:00" "Efectivo" 0 1 ejemplo_con_pedido)
    as (st2 & Hrun & Hped & _); [vm_compute; reflexivity|].
  exists st2. split; [exact Hrun|]. rewrite Hped. vm_compute. reflexivity.
Defined.

(** ** The summary as the sheets grow *)

Lemma resumen_snoc df_flujo df_gastos e :
  let r := resumen df_flujo df_gastos in
  let r' := resumen (df_flujo ++ [e]) df_gastos in
  let p := Ingreso_productos_recibido e in
  total_prod_efectivo r'
  = total_prod_efectivo r + (if decide (fl_Medio_pago e = "Efectivo") then p else 0) ∧
  total_prod_transfer r'
  = total_prod_transfer r + (if decide (fl_Medio_pago e = "Transferencia") then p else 0) ∧
  total_prod_other r'
  = total_prod_other r
    + (if decide (fl_Medio_pago e ≠ "Efectivo" ∧ fl_Medio_pago e ≠ "Transferencia")
       then p else 0) ∧
  total_domicilios r' = total_domicilios r + Ingreso_domicilio_recibido e ∧
  total_gastos r' = total_gastos r.
Proof.
  unfold resumen. cbn [total_prod_efectivo total_prod_transfer total_prod_other
                       total_domicilios total_gastos].
  rewrite !filter_es_medio, !filter_otros, !filter_app, !sum_col_app.
  rewrite !filter_cons, !filter_nil.
  split; [|split; [|split; [|split]]]; try done;
    try (case_decide; unfold sum_col; simpl; lia).
  unfold sum_col. simpl. lia.
Qed.

(** X15. Each settlement enters the summary once: after a returning
    [mark_order_delivered], product revenue and the net balance are up by
    the amount applied to the products, in the bucket of the payment method
    (Efectivo, Transferencia, or other for any other method), delivery
    revenue is up by the amount applied to the fee, and expenses are as
    before. *)
Theorem settlement_in_summary fecha order_id medio_pago monto st a st' :
  mark_order_delivered fecha order_id medio_pago monto st = (inr a, st') →
  let r := resumen_de st in
  let r' := resumen_de st' in
  total_prod r' = total_prod r + prod_paid a ∧
  saldo_real r' = saldo_real r + prod_paid a ∧
  total_domicilios r' = total_domicilios r + domicilio_paid a ∧
  total_gastos r' = total_gastos r ∧
  total_prod_efectivo r'
  = total_prod_efectivo r + (if decide (medio_pago = "Efectivo") then prod_paid a else 0) ∧
  total_prod_transfer r'
  = total_prod_transfer r
    + (if decide (medio_pago = "Transferencia") then prod_paid a else 0) ∧
  total_prod_other r'
  = total_prod_other r
    + (if decide (medio_pago ≠ "Efectivo" ∧ medio_pago ≠ "Transferencia")
       then prod_paid a else 0).
Proof.
  intros Hrun r r'. subst r r'. unfold resumen_de.
  destruct (find_row (λ r, ID_Pedido r =? order_id) (ws_pedidos st))
    as [[idx row]|] eqn:Hf.
  - rewrite (mark_order_delivered_found _ _ _ _ _ _ _ Hf) in Hrun.
    injection Hrun as <- <-. cbn [ws_flujo ws_gastos set_flujo set_pedidos]. unfold append_row.
    match goal with
    | |- context [resumen (?fl ++ [?e]) ?g] =>
      pose proof (resumen_snoc fl g e) as (He & Ht & Ho & Hd & Hg);
      pose proof (resumen_total_prod fl g) as Htot;
      pose proof (resumen_total_prod (fl ++ [e]) g) as Htot'
    end.
    rewrite sum_col_app in Htot'. cbn [fl_Medio_pago Ingreso_productos_recibido
      Ingreso_domicilio_recibido] in *.
    split; [rewrite Htot', Htot; unfold sum_col; simpl; lia|].
    split.
    { change (saldo_real (resumen ?fl ?g)) with (total_prod (resumen fl g) - total_gastos (resumen fl g)).
      rewrite Htot', Htot, Hg. unfold sum_col. simpl. lia. }
    done.
  - unfold mark_order_delivered in Hrun. run. by rewrite Hf in Hrun.
Qed.

Lemma settlement_in_summary_witness :
  total_prod
    (resumen_de (mark_order_delivered "2024-05-02 09:00:00" 1 "Efectivo" 23000
                   ejemplo_con_pedido).2)
  = total_prod (resumen_de ejemplo_con_pedido) + 20000.
Proof.
  destruct (settlement_in_summary "2024-05-02 09:00:00" 1 "Efectivo" 23000
              ejemplo_con_pedido (mkAsignacion 20000 3000 0)
              (mark_order_delivered "2024-05-02 09:00:00" 1 "Efectivo" 23000
                 ejemplo_con_pedido).2) as (H & _); [vm_compute; reflexivity|exact H].
Defined.

(** X16. [add_expense] always returns; it appends one expense row and
    writes nothing else, so in the summary expenses go up and the net
    balance goes down by the amount, while product and delivery revenue
    stay as they were. *)
Theorem expense_in_summary fecha concepto monto st :
  ∃ st',
    add_expense fecha concepto monto st = (inr tt, st') ∧
    ws_gastos st' = (ws_gastos st ++ [mkGasto fecha concepto monto])%list ∧
    ws_clientes st' = ws_clientes st ∧ ws_pedidos st' = ws_pedidos st ∧
    ws_inventario st' = ws_inventario st ∧ ws_flujo st' = ws_flujo st ∧
    total_gastos (resumen_de st') = total_gastos (resumen_de st) + monto ∧
    saldo_real (resumen_de st') = saldo_real (resumen_de st) - monto ∧
    total_prod (resumen_de st') = total_prod (resumen_de st) ∧
    total_domicilios (resumen_de st') = total_domicilios (resumen_de st).
Proof.
  destruct st as [cl pe inv fl ga].
  eexists. split; [reflexivity|]. unfold resumen_de, set_gastos, append_row.
  cbn [ws_gastos ws_clientes ws_pedidos ws_inventario ws_flujo].
  do 5 (split; [done|]).
  assert (sum_col ga_Monto (ga ++ [mkGasto fecha concepto monto])
          = sum_col ga_Monto ga + monto) as Hsum.
  { rewrite sum_col_app. unfold sum_col. simpl. lia. }
  split; [exact Hsum|]. split; [|done].
  change (saldo_real (resumen ?fl ?g)) with (total_prod (resumen fl g) - sum_col ga_Monto g).
  rewrite Hsum. cbn [total_prod resumen]. lia.
Qed.

Lemma sum_col_Permutation {A} (col : A → Z) (l1 l2 : list A) :
  l1 ≡ₚ l2 → sum_col col l1 = sum_col col l2.
Proof.
  unfold sum_col. induction 1 as [|x l1 l2 _ IH|x y l|l1 l2 l3 _ IH1 _ IH2]; simpl;
    [done|by rewrite IH|lia|congruence].
Qed.

(** X17. The summary does not depend on the order of the rows: reordering
    the cash-flow entries or the expenses gives the same figures. *)
Theorem resumen_Permutation df_flujo df_flujo' df_gastos df_gastos' :
  df_flujo ≡ₚ df_flujo' → df_gastos ≡ₚ df_gastos' →
  resumen df_flujo df_gastos = resumen df_flujo' df_gastos'.
Proof.
  intros Hf Hg. unfold resumen.
  rewrite (sum_col_Permutation ga_Monto _ _ Hg).
  rewrite (sum_col_Permutation Ingreso_domicilio_recibido _ _ Hf).
  rewrite (sum_col_Permutation Ingreso_productos_recibido
             (filter (λ r, es_medio "Efectivo" r) df_flujo)
             (filter (λ r, es_medio "Efectivo" r) df_flujo')) by (by rewrite Hf).
  rewrite (sum_col_Permutation Ingreso_productos_recibido
             (filter (λ r, es_medio "Transferencia" r) df_flujo)
             (filter (λ r, es_medio "Transferencia" r) df_flujo')) by (by rewrite Hf).
  rewrite (sum_col_Permutation Ingreso_productos_recibido
             (filter (λ r, negb (es_medio "Efectivo" r || es_medio "Transferencia" r))
                     df_flujo)
             (filter (λ r, negb (es_medio "Efectivo" r || es_medio "Transferencia" r))
                     df_flujo')) by (by rewrite Hf).
  done.
Qed.

Lemma resumen_Permutation_witness :
  resumen [mkFlujo "f" 1 "Ana" "Efectivo" 20000 3000 0;
           mkFlujo "g" 2 "Luis" "Pago parcial" 5000 0 5000] []
  = resumen [mkFlujo "g" 2 "Luis" "Pago parcial" 5000 0 5000;
             mkFlujo "f" 1 "Ana" "Efectivo" 20000 3000 0] [].
Proof. apply resumen_Permutation; [apply Permutation_swap|done]. Defined.

(** ** Replenishing stock *)

Lemma form_update_inventory_run prod nueva st idx r :
  find_row (λ r : InvRow, String.eqb r.1 prod) (ws_inventario st) = Some (idx, r) →
  form_update_inventory prod nueva st
  = (inr (st_success ("Stock actualizado: " +:+ prod +:+ " = " +:+ pretty (r.2 + nueva))),
     set_inventario (alter (λ row : InvRow, (row.1, r.2 + nueva)) idx) st).
Proof.
  intros Hf.
  destruct (form_update_inventory_cases prod nueva st)
    as [[Hnone _]|(idx' & r' & Hf' & ->)]; [congruence|].
  rewrite Hf in Hf'. by injection Hf' as <- <-.
Qed.

Lemma stock_of_Some_find p rows s :
  stock_of p rows = Some s →
  ∃ idx r, find_row (λ r : InvRow, String.eqb r.1 p) rows = Some (idx, r) ∧ r.2 = s.
Proof.
  unfold stock_of. destruct (find_row _ rows) as [[idx r]|]; [|done].
  intros [= <-]. by exists idx, r.
Qed.

(** X18. The stock form adds to the stock of the chosen product: for a
    product with an inventory row it reports and stores current + added,
    leaves every other product's stock, the row names and the other sheets
    as they were.  It writes nothing when it raises: [KeyError] on an
    inventory sheet without rows, [IndexError] on a sheet with rows none of
    which is the product's. *)
Theorem form_update_inventory_spec prod nueva st :
  (∀ current, stock_of prod (ws_inventario st) = Some current →
     ∃ st',
       form_update_inventory prod nueva st
       = (inr (st_success ("Stock actualizado: " +:+ prod +:+ " = "
                           +:+ pretty (current + nueva))), st') ∧
       stock_of prod (ws_inventario st') = Some (current + nueva) ∧
       (∀ p, p ≠ prod → stock_of p (ws_inventario st') = stock_of p (ws_inventario st)) ∧
       (ws_inventario st').*1 = (ws_inventario st).*1 ∧
       ws_clientes st' = ws_clientes st ∧ ws_pedidos st' = ws_pedidos st ∧
       ws_flujo st' = ws_flujo st ∧ ws_gastos st' = ws_gastos st) ∧
  (ws_inventario st = [] →
     form_update_inventory prod nueva st = (inl (KeyError "Producto"), st)) ∧
  (ws_inventario st ≠ [] → stock_of prod (ws_inventario st) = None →
     form_update_inventory prod nueva st = (inl IndexError, st)).
Proof.
  split; [|split].
  - intros current Hs. apply stock_of_Some_find in Hs as (idx & r & Hf & <-).
    eexists. split; [by apply form_update_inventory_run|]. simpl.
    split; [by rewrite (stock_of_alter _ _ _ _ _ _ Hf), decide_True|].
    split; [intros p Hp; by rewrite (stock_of_alter _ _ _ _ _ _ Hf), decide_False|].
    by rewrite names_alter.
  - intros Hinv.
    destruct (form_update_inventory_cases prod nueva st)
      as [[_ ->]|(idx & r & Hf & _)]; [by rewrite decide_True|].
    by rewrite Hinv in Hf.
  - intros Hne Hs.
    destruct (form_update_inventory_cases prod nueva st)
      as [[_ ->]|(idx & r & Hf & _)]; [by rewrite decide_False|].
    by rewrite (stock_of_find _ _ _ _ Hf) in Hs.
Qed.

Lemma form_update_inventory_spec_witness :
  (∃ st',
     form_update_inventory "Arandanos_125g" 5 ejemplo
     = (inr (st_success "Stock actualizado: Arandanos_125g = 15"), st') ∧
     stock_of "Arandanos_125g" (ws_inventario st') = Some 15) ∧
  form_update_inventory "Arandanos_125g" 5 (set_inventario (λ _, []) ejemplo)
  = (inl (KeyError "Producto"), set_inventario (λ _, []) ejemplo) ∧
  form_update_inventory "Fresas" 5 ejemplo = (inl IndexError, ejemplo).
Proof.
  split; [|split].
  - destruct (form_update_inventory_spec "Arandanos_125g" 5 ejemplo) as [H _].
    destruct (H 10) as (st' & Hrun & Hs & _); [vm_compute; reflexivity|].
    exists st'. split; [exact Hrun|exact Hs].
  - destruct (form_update_inventory_spec "Arandanos_125g" 5
                (set_inventario (λ _, []) ejemplo)) as (_ & H & _).
    apply H. reflexivity.
  - destruct (form_update_inventory_spec "Fresas" 5 ejemplo) as (_ & _ & H).
    apply H; [discriminate|vm_compute; reflexivity].
Defined.

(** X19. Replenishing is additive: adding n1 and then n2 to a product
    leaves the inventory sheet exactly as adding n1 + n2 at once, with
    stock current + n1 + n2. *)
Theorem form_update_inventory_additive prod n1 n2 st current :
  stock_of prod (ws_inventario st) = Some current →
  let st1 := (form_update_inventory prod n1 st).2 in
  let st2 := (form_update_inventory prod n2 st1).2 in
  stock_of prod (ws_inventario st2) = Some (current + n1 + n2) ∧
  ws_inventario st2 = ws_inventario (form_update_inventory prod (n1 + n2) st).2.
Proof.
  intros Hs st1 st2. subst st1 st2.
  apply stock_of_Some_find in Hs as (idx & r & Hf & <-).
  rewrite (form_update_inventory_run _ n1 _ _ _ Hf). cbn [snd].
  rewrite (form_update_inventory_run _ (n1 + n2) _ _ _ Hf). cbn [snd].
  assert (find_row (λ r : InvRow, String.eqb r.1 prod)
            (ws_inventario
               (set_inventario (alter (λ row : InvRow, (row.1, r.2 + n1)) idx) st))
          = Some (idx, (r.1, r.2 + n1))) as Hf1.
  { simpl. rewrite find_row_alter by done. rewrite Hf. by rewrite decide_True. }
  rewrite (form_update_inventory_run _ n2 _ _ _ Hf1). simpl.
  rewrite alter_alter_same by done. rewrite Z.add_assoc.
  split; [|done]. by rewrite (stock_of_alter _ _ _ _ _ _ Hf), decide_True.
Qed.

Lemma form_update_inventory_additive_witness :
  stock_of "Arandanos_125g"
    (ws_inventario (form_update_inventory "Arandanos_125g" 3
                      (form_update_inventory "Arandanos_125g" 5 ejemplo).2).2)
  = Some (10 + 5 + 3).
Proof.
  destruct (form_update_inventory_additive "Arandanos_125g" 5 3 ejemplo 10) as [H _];
    [vm_compute; reflexivity|exact H].
Defined.

(** ** Start-up *)

(** X20. Seeding the inventory at start-up: a sheet without rows gets one
    row with stock 0 per catalog product, in catalog order, and is then as
    the data model asks; a sheet that has rows is left as it is; seeding a
    second time changes nothing. *)
Theorem inicializar_inventario_spec st :
  (ws_inventario st = [] →
   ∃ st',
     inicializar_inventario st = (inr tt, st') ∧
     ws_inventario st' = (λ pp : string * Z, (pp.1, 0)) <$> PRODUCTOS ∧
     inventario_ok st' ∧ catalogo_en_inventario st' ∧
     ws_clientes st' = ws_clientes st ∧ ws_pedidos st' = ws_pedidos st ∧
     ws_flujo st' = ws_flujo st ∧ ws_gastos st' = ws_gastos st) ∧
  (ws_inventario st ≠ [] → inicializar_inventario st = (inr tt, st)) ∧
  inicializar_inventario (inicializar_inventario st).2
  = (inr tt, (inicializar_inventario st).2).
Proof.
  split; [|split].
  - intros Hinv. unfold inicializar_inventario. run. rewrite Hinv.
    eexists. split; [reflexivity|]. simpl. rewrite Hinv.
    split; [reflexivity|].
    split.
    { unfold inventario_ok, stock_nonneg. simpl. rewrite Hinv.
      split; [done|]. split; apply (bool_decide_unpack _); vm_compute; exact I. }
    split; [|done].
    unfold catalogo_en_inventario. simpl. rewrite Hinv.
    unfold PRODUCTOS. repeat constructor; vm_compute; eauto.
  - intros Hne. unfold inicializar_inventario. run.
    by destruct (ws_inventario st).
  - unfold inicializar_inventario. run.
    destruct (ws_inventario st) as [|r0 inv] eqn:Hinv; simpl.
    + by rewrite Hinv.
    + by rewrite Hinv.
Qed.

Lemma inicializar_inventario_spec_witness :
  ∃ st',
    inicializar_inventario (mkSheets [] [] [] [] []) = (inr tt, st') ∧
    ws_inventario st' = (λ pp : string * Z, (pp.1, 0)) <$> PRODUCTOS.
Proof.
  destruct (inicializar_inventario_spec (mkSheets [] [] [] [] [])) as [H _].
  destruct (H eq_refl) as (st' & Hrun & Hinv & _).
  exists st'. split; [exact Hrun|exact Hinv].
Defined.

(** ** Worksheet headers *)

Lemma ensure_header_fix headers ws :
  headers ≠ [] →
  take (length headers) (row_values_1 ws) = headers →
  ensure_header headers ws = ws.
Proof.
  intros Hne Htake. unfold ensure_header.
  assert (length headers ≤ length (row_values_1 ws))%nat as Hlen.
  { rewrite <- Htake at 1. rewrite length_take. lia. }
  rewrite bool_decide_false, (bool_decide_true _ Htake).
  - simpl. by destruct (Nat.ltb_spec (length (row_values_1 ws)) (length headers)); [lia|].
  - intros Hnil. rewrite Hnil in Hlen. destruct headers; [done|]. simpl in Hlen. lia.
Qed.

Lemma ensure_header_cases headers ws :
  ensure_header headers ws = ws ∧ take (length headers) (row_values_1 ws) = headers ∨
  ensure_header headers ws = headers :: ws ∧ any_cell (row_values_1 ws) = false ∨
  ensure_header headers ws = headers :: tail ws ∧ any_cell (row_values_1 ws) = true.
Proof.
  unfold ensure_header.
  destruct (bool_decide (row_values_1 ws = [])
            || (length (row_values_1 ws) <? length headers)%nat
            || negb (bool_decide (take (length headers) (row_values_1 ws) = headers)))
    eqn:Hcond.
  - right. destruct (any_cell (row_values_1 ws)) eqn:Hany.
    + right. split; [|done]. destruct ws as [|r ws]; [done|]. done.
    + left. split; [|done]. by rewrite andb_false_r.
  - left. split; [done|].
    apply orb_false_iff in Hcond as [_ Hcond]. apply negb_false_iff in Hcond.
    by apply bool_decide_eq_true in Hcond.
Qed.

Lemma ensure_header_head headers ws :
  take (length headers) (row_values_1 (ensure_header headers ws)) = headers.
Proof.
  destruct (ensure_header_cases headers ws) as [[-> H]|[[-> _]|[-> _]]]; [done| |];
    simpl; by rewrite take_ge.
Qed.

(** X21. [ensure_worksheet] makes the first row of the worksheet start with
    the headers, creating the worksheet when the spreadsheet has none of
    that title, and touches no other worksheet.  A worksheet whose first
    row already starts with the headers is left as it is, so a second call
    changes nothing.  Otherwise the headers become the first row; the rows
    below the first are always kept, in order, and the old first row is
    kept too unless it has a value in some cell, in which case it is
    deleted. *)
Theorem ensure_worksheet_spec title headers (ss : gmap string (list (list string))) :
  headers ≠ [] →
  let ss' := ensure_worksheet title headers ss in
  (∃ ws', ss' !! title = Some ws' ∧
          take (length headers) (row_values_1 ws') = headers) ∧
  (∀ t, t ≠ title → ss' !! t = ss !! t) ∧
  ensure_worksheet title headers ss' = ss' ∧
  (∀ ws, ss !! title = Some ws →
     (take (length headers) (row_values_1 ws) = headers → ss' = ss) ∧
     (ss' !! title = Some ws ∨
      (ss' !! title = Some (headers :: ws) ∧ any_cell (row_values_1 ws) = false) ∨
      (ss' !! title = Some (headers :: tail ws) ∧ any_cell (row_values_1 ws) = true))) ∧
  (ss !! title = None → ss' !! title = Some (headers :: replicate 1000 [])).
Proof.
  intros Hne ss'. subst ss'. unfold ensure_worksheet.
  split; [|split; [|split; [|split]]].
  - eexists. split; [apply lookup_insert_eq|]. apply ensure_header_head.
  - intros t Ht. by rewrite lookup_insert_ne.
  - rewrite lookup_insert_eq, insert_insert_eq.
    by rewrite (ensure_header_fix _ _ Hne (ensure_header_head _ _)).
  - intros ws Hws. rewrite Hws. split.
    + intros Htake. rewrite (ensure_header_fix _ _ Hne Htake). by apply insert_id.
    + rewrite lookup_insert_eq.
      destruct (ensure_header_cases headers ws) as [[-> _]|[[-> H]|[-> H]]]; eauto.
  - intros Hnone. by rewrite Hnone, lookup_insert_eq.
Qed.

Lemma ensure_worksheet_spec_witness :
  ensure_worksheet "Gastos" ["Fecha"; "Concepto"; "Monto"]
    {["Gastos" := [["Fecha"; "Concepto"; "Monto"]; ["2024-05-01"; "cajas"; "5000"]]]}
  = {["Gastos" := [["Fecha"; "Concepto"; "Monto"]; ["2024-05-01"; "cajas"; "5000"]]]}.
Proof.
  destruct (ensure_worksheet_spec "Gastos" ["Fecha"; "Concepto"; "Monto"]
              {["Gastos" := [["Fecha"; "Concepto"; "Monto"];
                             ["2024-05-01"; "cajas"; "5000"]]]})
    as (_ & _ & _ & H & _); [discriminate|].
  destruct (H [["Fecha"; "Concepto"; "Monto"]; ["2024-05-01"; "cajas"; "5000"]])
    as [H1 _]; [apply lookup_singleton_eq|].
  apply H1. reflexivity.
Defined.

Lemma ejecutar_inventario_ok_witness :
  inventario_ok
    (ejecutar (OpCreateOrder "2024-05-01 10:00:00" 1 [("Fresas", -2)] false) ejemplo).
Proof.
  apply ejecutar_inventario_ok; [exact I|].
  split; [discriminate|].
  split; apply (bool_decide_unpack _); vm_compute; exact I.
Defined.

(** ** Outstanding balance and amounts applied *)

Lemma aplicado_snoc order_id df_flujo e :
  aplicado order_id (df_flujo ++ [e])
  = aplicado order_id df_flujo
    + (if decide (fl_ID_Pedido e = order_id)
       then Ingreso_productos_recibido e + Ingreso_domicilio_recibido e else 0).
Proof.
  unfold aplicado. rewrite filter_app, sum_col_app, filter_cons, filter_nil.
  case_decide; unfold sum_col; simpl; lia.
Qed.

Lemma aplicado_fresh order_id (df_flujo : list Flujo) :
  order_id ∉ fl_ID_Pedido <$> df_flujo → aplicado order_id df_flujo = 0.
Proof.
  unfold aplicado. induction df_flujo as [|e rest IH]; [done|].
  rewrite fmap_cons, not_elem_of_cons. intros [Hne Hrest].
  rewrite filter_cons, decide_False by done. by apply IH.
Qed.

Lemma create_order_estado fecha cliente_id productos_cant domicilio_bool st :
  let st' := (create_order fecha cliente_id productos_cant domicilio_bool st).2 in
  ws_flujo st' = ws_flujo st ∧
  (ws_pedidos st' = ws_pedidos st ∨
   ∃ name,
     ws_pedidos st'
     = (ws_pedidos st
        ++ [fila_pedido fecha cliente_id name productos_cant domicilio_bool
                        (next_id (ID_Pedido <$> ws_pedidos st))])%list).
Proof.
  simpl.
  destruct (find_row (λ c, cli_ID_Cliente c =? cliente_id) (ws_clientes st))
    as [[i c]|] eqn:Hf.
  - rewrite (create_order_cliente _ _ _ _ _ _ _ Hf).
    destruct (validar_stock _ productos_cant st) as [[e|[]] st0]; [by split; [|left]|].
    simpl.
    destruct (update_inventory_loop _ _ _) as [res st2] eqn:Hloop.
    apply update_inventory_loop_frame in Hloop as (_ & Hped & Hfl & _).
    assert (ws_flujo st2 = ws_flujo st ∧
            ws_pedidos st2
            = (ws_pedidos st
               ++ [fila_pedido fecha cliente_id (cli_Nombre c) productos_cant
                     domicilio_bool (next_id (ID_Pedido <$> ws_pedidos st))])%list)
      as [H1 H2] by done.
    destruct res as [e|[]]; (split; [exact H1|right; by exists (cli_Nombre c)]).
  - apply find_cliente_None in Hf. rewrite (create_order_no_cliente _ _ _ _ _ Hf).
    by split; [|left].
Qed.

Lemma saldos_ok_frame st st' :
  ws_pedidos st' = ws_pedidos st → ws_flujo st' = ws_flujo st →
  saldos_ok st → saldos_ok st'.
Proof. unfold saldos_ok. by intros -> ->. Qed.

Lemma saldos_ok_create_order fecha cliente_id productos_cant domicilio_bool st :
  Forall (λ it : string * Z, 0 ≤ it.2) productos_cant →
  saldos_ok st →
  saldos_ok (create_order fecha cliente_id productos_cant domicilio_bool st).2.
Proof.
  intros Hq Hok.
  destruct (create_order_estado fecha cliente_id productos_cant domicilio_bool st)
    as [Hfl [Hped|[name Hped]]]; [by apply (saldos_ok_frame st)|].
  destruct Hok as (Hnd & Hids & Hrows).
  unfold saldos_ok. rewrite Hfl, Hped, fmap_app. simpl.
  rewrite fila_pedido_fields. simpl.
  split; [by apply NoDup_snoc_fresh|]. split.
  - eapply Forall_impl; [exact Hids|]. intros e He. apply elem_of_app. by left.
  - apply Forall_app. split; [done|]. constructor; [|constructor]. simpl.
    split; [unfold DOMICILIO_COST; destruct domicilio_bool; lia|].
    unfold saldo_en_rango. simpl.
    rewrite aplicado_fresh.
    + pose proof (subtotal_de_nonneg _ Hq).
      unfold DOMICILIO_COST. destruct domicilio_bool; lia.
    + intros Hin. apply list_elem_of_fmap in Hin as (e & Heq & He).
      rewrite Forall_forall in Hids. specialize (Hids e He). rewrite <- Heq in Hids.
      by apply next_id_fresh in Hids.
Qed.

Lemma saldos_ok_mark_order_delivered fecha order_id medio_pago monto st :
  aplicado order_id (ws_flujo st) = 0 →
  saldos_ok st →
  saldos_ok (mark_order_delivered fecha order_id medio_pago monto st).2.
Proof.
  intros Hap (Hnd & Hids & Hrows).
  destruct (find_row (λ r, ID_Pedido r =? order_id) (ws_pedidos st))
    as [[idx row]|] eqn:Hf.
  2: { unfold mark_order_delivered. run. by rewrite Hf. }
  rewrite (mark_order_delivered_found _ _ _ _ _ _ _ Hf). cbn [snd].
  pose proof (find_row_Some _ _ _ _ Hf) as [Hi Hid]. apply Z.eqb_eq in Hid.
  set (a := asignar_pago (Subtotal_productos row) (Monto_domicilio row) monto).
  unfold saldos_ok. simpl. rewrite fmap_alter_same by done.
  split; [done|]. split.
  - unfold append_row. apply Forall_app. split; [done|]. constructor; [|constructor].
    simpl. rewrite <- Hid. apply list_elem_of_fmap_2. by eapply list_elem_of_lookup_2.
  - apply Forall_lookup. intros j r' Hj.
    rewrite Forall_lookup in Hrows.
    destruct (decide (j = idx)) as [->|Hne].
    + rewrite list_lookup_alter_eq, Hi in Hj. injection Hj as <-.
      destruct (Hrows _ _ Hi) as [Hfee _]. simpl. split; [done|].
      unfold saldo_en_rango, append_row. simpl. rewrite Hid, aplicado_snoc. simpl.
      rewrite decide_True by done. rewrite Hap.
      subst a. unfold asignar_pago. simpl. lia.
    + rewrite list_lookup_alter_ne in Hj by done.
      destruct (Hrows _ _ Hj) as [Hfee Hrango]. split; [done|].
      unfold saldo_en_rango, append_row in *. rewrite aplicado_snoc. simpl.
      rewrite decide_False; [by rewrite Z.add_0_r|].
      intros Heq. apply Hne.
      apply (NoDup_lookup _ j idx order_id Hnd);
        rewrite list_lookup_fmap; [by rewrite Hj; simpl; rewrite Heq|by rewrite Hi; simpl; rewrite Hid].
Qed.

(** C9, as the code has it. Starting from sheets without orders, as long as
    [create_order] is called with quantities that are all >= 0 (what the
    order form sends) and [mark_order_delivered] with an amount >= 0 on an
    order to which nothing has been applied yet, every order row has a
    stored outstanding balance that is not negative and does not exceed
    product subtotal plus delivery fee minus the amounts already applied to
    the order (the product and delivery amounts of its cash-flow entries).
    The balance stored by a [mark_order_delivered] is never negative. *)
Theorem order_balance_bounds :
  (∀ clientes inventario gastos, saldos_ok (mkSheets clientes [] inventario [] gastos)) ∧
  (∀ op st, saldos_ok st → operacion_admitida op st → saldos_ok (ejecutar op st)) ∧
  (∀ fecha order_id medio_pago monto st a st',
     mark_order_delivered fecha order_id medio_pago monto st = (inr a, st') →
     ∃ idx row row',
       find_row (λ r, ID_Pedido r =? order_id) (ws_pedidos st) = Some (idx, row) ∧
       ws_pedidos st' !! idx = Some row' ∧
       Saldo_pendiente row' = saldo_total a ∧
       0 ≤ Saldo_pendiente row').
Proof.
  split; [|split].
  - intros cl inv ga. unfold saldos_ok. simpl.
    split; [apply NoDup_nil_2|]. split; constructor.
  - intros op st Hok Hop.
    destruct op as [n t d|fecha cid pc dom|fecha oid medio monto|f c m|prod nueva]; simpl.
    + apply (saldos_ok_frame st); [| |done];
        unfold form_add_cliente; by destruct (decide (n = "")).
    + by apply saldos_ok_create_order.
    + destruct Hop as [_ Hap]. by apply saldos_ok_mark_order_delivered.
    + by apply (saldos_ok_frame st).
    + apply (saldos_ok_frame st); [| |done];
        by destruct (form_update_inventory_cases prod nueva st)
          as [[_ ->]|(idx & r & _ & ->)].
  - intros fecha order_id medio_pago monto st a st' Hrun.
    apply mark_order_delivered_success in Hrun as (idx & row & Hf & Ha & Hped & _).
    pose proof (find_row_Some _ _ _ _ Hf) as [Hi _].
    exists idx, row, (entregar medio_pago monto a row).
    split; [done|]. split; [by rewrite Hped, list_lookup_alter_eq, Hi|].
    simpl. split; [done|]. subst a. apply asignar_pago_saldo_nonneg.
Qed.

Lemma order_balance_bounds_witness :
  saldos_ok
    (ejecutar (OpMarkDelivered "2024-05-02 09:00:00" 1 "Pago parcial" 15000)
       (ejecutar (OpCreateOrder "2024-05-01 10:00:00" 1 [("Arandanos_500g", 1)] true)
          ejemplo)) ∧
  (Saldo_pendiente
     <$> ws_pedidos
           (ejecutar (OpMarkDelivered "2024-05-02 09:00:00" 1 "Pago parcial" 15000)
              (ejecutar (OpCreateOrder "2024-05-01 10:00:00" 1 [("Arandanos_500g", 1)] true)
                 ejemplo)),
   aplicado 1
     (ws_flujo
        (ejecutar (OpMarkDelivered "2024-05-02 09:00:00" 1 "Pago parcial" 15000)
           (ejecutar (OpCreateOrder "2024-05-01 10:00:00" 1 [("Arandanos_500g", 1)] true)
              ejemplo))))
  = ([8000], 15000).
Proof.
  destruct order_balance_bounds as (H0 & H & _).
  split; [|vm_compute; reflexivity].
  apply H; [apply H; [apply H0|]|].
  - constructor; [simpl; lia|constructor].
  - split; [lia|vm_compute; reflexivity].
Defined.

(** C9 as stated fails in two ways.  [create_order] with a negative quantity
    records an order with a negative outstanding balance.  And a second
    [mark_order_delivered] forgets what the first one applied: after 15000
    applied to an order of 20000 + 3000, settling again with 0 stores a
    balance of 23000, above 23000 - 15000. *)
Lemma order_balance_counterexample :
  (∃ pid st' row,
     create_order "2024-05-01 10:00:00" 1 [("Arandanos_125g", -1)] false ejemplo
     = (inr pid, st') ∧
     ws_pedidos st' = [row] ∧
     Saldo_pendiente row = -5000 ∧
     ¬ saldo_en_rango (ws_flujo st') row) ∧
  (∃ a1 st1 a2 st2 row,
     mark_order_delivered "2024-05-02 09:00:00" 1 "Pago parcial" 15000 ejemplo_con_pedido
     = (inr a1, st1) ∧
     mark_order_delivered "2024-05-03 09:00:00" 1 "Efectivo" 0 st1 = (inr a2, st2) ∧
     ws_pedidos st2 = [row] ∧
     Saldo_pendiente row = 23000 ∧
     Subtotal_productos row + Monto_domicilio row - aplicado (ID_Pedido row) (ws_flujo st2)
     = 8000 ∧
     ¬ saldo_en_rango (ws_flujo st2) row).
Proof.
  split.
  - eexists _, _, _. split; [vm_compute; reflexivity|].
    split; [reflexivity|]. split; [reflexivity|].
    intros [H _]. simpl in H. lia.
  - eexists _, _, _, _, _. split; [vm_compute; reflexivity|].
    split; [vm_compute; reflexivity|]. split; [reflexivity|].
    split; [reflexivity|]. split; [vm_compute; reflexivity|].
    intros [_ H]. vm_compute in H. by apply H.
Qed.
